(** * hoasis: the temperature page ([src/pages/main.ts])

    A shallow embedding of the page's date helpers, its year-stacking
    transform ([renderCharts]), the chart projection ([createChart]) and the
    two network operations ([loadData], [search]), followed by the properties
    the specification states about them.

    Conventions.
    - A temperature or a coordinate is an exact rational ([Q]): the code
      only moves these numbers around.  The opacity, which the code
      computes, is a binary64 number ([float]) computed as the browser
      computes it.
    - A JavaScript array is a [list]; reading [a[i]] is stdpp's [a !! i],
      where [None] is JavaScript's [undefined].
    - The object [yearlyData] is a [gmap] from the year text to its bucket.
    - A text is the sequence of its UTF-8 bytes.
    - [moment] is an external library.  Its calendar is the proleptic
      Gregorian calendar of [Date]; how it reads a timestamp, which depends
      on the browser's time zone, is a parameter ([Reading]) of the
      transform. *)

From Stdlib Require Import ZArith QArith Lia.
From Stdlib Require Import Ascii String DecimalString.
From Stdlib Require Import Floats.PrimFloat Numbers.Cyclic.Int63.Uint63.
From stdpp Require Import gmap strings list sorting.

#[local] Set Warnings "-clear-no-such-hyp".

Local Open Scope string_scope.
Local Open Scope nat_scope.
Local Open Scope list_scope.
Local Open Scope stdpp_scope.

(** ** JavaScript helpers *)

Module Js.

(** [n.toString()] for a non-negative integer. *)
Definition toString (n : nat) : string :=
  NilEmpty.string_of_uint (Nat.to_uint n).

Fixpoint repeat_char (c : ascii) (n : nat) : string :=
  match n with
  | O => ""
  | S n' => String c (repeat_char c n')
  end.

(** [s.padStart(width, c)] with a one-character filler. *)
Definition padStart (width : nat) (c : ascii) (s : string) : string :=
  repeat_char c (width - String.length s) +:+ s.

(** [a[i] = v] on an array: inside the array the element is replaced, at or
    beyond its length the array grows up to index [i], the skipped
    positions reading as [hole]. *)
Definition array_set {A} (hole : A) (a : list A) (i : nat) (v : A) : list A :=
  if decide (i < length a) then <[i:=v]> a
  else a ++ replicate (i - length a) hole ++ [v].

(** [Array.from({ length: n }, (_, i) => f(i))]. *)
Definition array_from {A} (n : nat) (f : nat -> A) : list A :=
  f <$> seq 0 n.

(** [a.forEach((x, index) => ...)] where the callback updates a state [s]
    that the loop threads through. *)
Fixpoint forEachFrom {A St} (f : St -> A -> nat -> St) (s : St) (a : list A)
    (index : nat) : St :=
  match a with
  | [] => s
  | x :: a' => forEachFrom f (f s x index) a' (S index)
  end.

Definition forEach {A St} (f : St -> A -> nat -> St) (s : St) (a : list A) : St :=
  forEachFrom f s a 0.

(** The Number an integer count is. *)
Definition number (n : Z) : float := PrimFloat.of_uint63 (Uint63.of_Z n).

(** [a.sort()] on an array of strings: ascending in code-unit order. *)
Definition sort (a : list string) : list string :=
  merge_sort String.le a.

End Js.

(** ** The calendar of [moment] *)

Module Moment.

(** A valid moment: a calendar date, month and day counted from 1. *)
Record t := mk { year : nat; month : nat; date : nat }.

Definition isLeapYear (y : nat) : bool :=
  ((y mod 4 =? 0) && negb (y mod 100 =? 0)) || (y mod 400 =? 0).

Definition daysInYear (y : nat) : nat :=
  if isLeapYear y then 366 else 365.

Definition daysInMonth (y m : nat) : nat :=
  match m with
  | 2 => if isLeapYear y then 29 else 28
  | 4 | 6 | 9 | 11 => 30
  | _ => 31
  end.

Definition valid (d : t) : bool :=
  (1 <=? month d) && (month d <=? 12) &&
  (1 <=? date d) && (date d <=? daysInMonth (year d) (month d)).

(** Days of the year that precede month [m]. *)
Fixpoint daysBefore (y m : nat) : nat :=
  match m with
  | O => 0
  | S m' => match m' with
            | O => 0
            | _ => daysBefore y m' + daysInMonth y m'
            end
  end.

(** [m.dayOfYear()], counted from 1. *)
Definition dayOfYear (d : t) : nat :=
  daysBefore (year d) (month d) + date d.

(** [m.add(1, "days")]. *)
Definition addDay (d : t) : t :=
  if date d <? daysInMonth (year d) (month d)
  then mk (year d) (month d) (S (date d))
  else if month d <? 12
       then mk (year d) (S (month d)) 1
       else mk (S (year d)) 1 1.

(** [m.add(n, "days")]. *)
Fixpoint addDays (n : nat) (d : t) : t :=
  match n with
  | O => d
  | S n' => addDays n' (addDay d)
  end.

Definition digit (c : ascii) : option nat :=
  let n := nat_of_ascii c in
  if (48 <=? n) && (n <=? 57) then Some (n - 48) else None.

Definition number2 (a b : ascii) : option nat :=
  x ← digit a; y ← digit b; Some (10 * x + y).

Definition number4 (a b c d : ascii) : option nat :=
  x ← number2 a b; y ← number2 c d; Some (100 * x + y).

(** What follows the calendar date in an ISO timestamp: nothing, or a time
    of day introduced by [T] or a blank. *)
Definition timeSuffix (s : string) : bool :=
  match s with
  | "" => true
  | String c _ => bool_decide (c = "T"%char) || bool_decide (c = " "%char)
  end.

(** The calendar date an ISO text [YYYY-MM-DD...] is written with; [None]
    when the text does not start with a date of the calendar.  This is what
    [moment(s)] yields on a date without time, such as ["0000-01-01"], in
    every time zone, and on the timestamps of the endpoint, which are
    midnights [T00:00+00:00], wherever local time is Greenwich time or
    ahead of it. *)
Definition parse (s : string) : option t :=
  match s with
  | String y1 (String y2 (String y3 (String y4 (String "-"
      (String m1 (String m2 (String "-" (String d1 (String d2 rest))))))))) =>
      y ← number4 y1 y2 y3 y4;
      m ← number2 m1 m2;
      d ← number2 d1 d2;
      let r := mk y m d in
      if valid r && timeSuffix rest then Some r else None
  | _ => None
  end.

(** [m.subtract(1, "days")], within the calendar from the year 0 on. *)
Definition eve (d : t) : option t :=
  if 1 <? date d then Some (mk (year d) (month d) (date d - 1))
  else if 1 <? month d
       then Some (mk (year d) (month d - 1) (daysInMonth (year d) (month d - 1)))
       else if 0 <? year d then Some (mk (year d - 1) 12 31) else None.

(** [m.format("YYYY")]: the year filled with zeros to four digits; an
    invalid moment formats as the text [Invalid date]. *)
Definition formatYYYY (m : option t) : string :=
  match m with
  | Some d => Js.padStart 4 "0" (Js.toString (year d))
  | None => "Invalid date"
  end.

Definition monthShort (m : nat) : string :=
  match m with
  | 1 => "Jan" | 2 => "Feb" | 3 => "Mar" | 4 => "Apr"
  | 5 => "May" | 6 => "Jun" | 7 => "Jul" | 8 => "Aug"
  | 9 => "Sep" | 10 => "Oct" | 11 => "Nov" | _ => "Dec"
  end.

(** [m.format("MMM D")]. *)
Definition formatMMMD (m : option t) : string :=
  match m with
  | Some d => monthShort (month d) +:+ " " +:+ Js.toString (date d)
  | None => "Invalid date"
  end.

End Moment.

(** How the browser's [moment] reads a timestamp: the calendar date of the
    instant in local time, or [None] for an invalid moment.  The reading
    depends on the time zone of the browser and on the forms of text
    [moment] accepts; the transform below is stated for any reading. *)
Class Reading := moment : string -> option Moment.t.

(** The reading that keeps the date as written: that of a browser whose
    local time is Greenwich time or ahead of it, on the midnight timestamps
    of the endpoint.  It is the reading wherever none is named. *)
#[global] Instance written : Reading := Moment.parse.

(** The reading of a browser west of Greenwich, on the two forms of text
    the page meets: a midnight timestamp of the endpoint, which there falls
    on the eve of the date written, and a date without time, which is read
    as written.  Other forms are outside this reading. *)
Definition western : Reading := fun s =>
  let rest := String.substring 10 (String.length s - 10) s in
  if String.eqb rest "T00:00+00:00" then m ← Moment.parse s; Moment.eve m
  else if String.eqb rest "" then Moment.parse s
  else None.

(** ** Printed numbers read back *)

Module Printed.

(** Whether [n], printed, is four digits that read back as [n]. *)
Definition fourDigits (n : nat) : bool :=
  match Js.toString n with
  | String a (String b (String c (String d EmptyString))) =>
      bool_decide (Moment.number4 a b c d = Some n)
  | _ => false
  end.

(** Whether [n], printed and padded to two places, is two digits that read
    back as [n]. *)
Definition twoDigits (n : nat) : bool :=
  match Js.padStart 2 "0" (Js.toString n) with
  | String a (String b EmptyString) =>
      bool_decide (Moment.number2 a b = Some n)
  | _ => false
  end.

End Printed.

(** ** Data model *)

(** A temperature as the endpoint reports it: a number, or [null] for a day
    without an observation. *)
Inductive temp := Num (x : Q) | Null.

(** An element of an [Array<number | null>]; [None] is [undefined]. *)
Definition cell := option temp.

(** [SpartacusResult], with [features[0].properties.parameters.TN.data] and
    [...TX.data] flattened to two fields. *)
Record SpartacusResult := {
  timestamps : list string;
  TN : list temp;
  TX : list temp
}.

Record GeocodingResult := {
  geo_lat : string;
  geo_lon : string;
  display_name : string
}.

(** One entry of [yearlyData]. *)
Record YearData := {
  minTemps : list cell;
  maxTemps : list cell
}.

(** A colour written [rgba(r, g, b, a)]. *)
Inductive Color := rgba (r g b : nat) (a : float).

Definition alpha (c : Color) : float :=
  match c with rgba _ _ _ a => a end.

Record Dataset := {
  label : string;
  data : list cell;
  borderColor : Color;
  borderWidth : option nat;
  fill : bool;
  pointRadius : option nat
}.

(** ** The year-stacking transform of [renderCharts] *)

Module Stack.

Definition yearOf {R : Reading} (date : string) : string :=
  Moment.formatYYYY (moment date).

(** First loop: a year seen for the first time gets two arrays of 365
    [null]s. *)
Definition initYear {R : Reading} (yearlyData : gmap string YearData) (date : string)
    (_ : nat) : gmap string YearData :=
  let year := yearOf date in
  match yearlyData !! year with
  | Some _ => yearlyData
  | None =>
      <[year := {| minTemps := replicate 365 (Some Null);
                   maxTemps := replicate 365 (Some Null) |}]> yearlyData
  end.

(** Second loop: the sample of timestamp [index] is stored at its day of
    the year.  For an invalid moment the day of the year is [NaN]; the
    assignment then sets a property named [NaN] and leaves the array
    elements as they are. *)
Definition fillDay {R : Reading} (minTemp maxTemp : list temp)
    (yearlyData : gmap string YearData) (date : string) (index : nat)
    : gmap string YearData :=
  let year := yearOf date in
  match moment date with
  | Some m =>
      let dayOfYear := Moment.dayOfYear m - 1 in
      alter (fun y =>
               {| minTemps := Js.array_set None (minTemps y) dayOfYear (minTemp !! index);
                  maxTemps := Js.array_set None (maxTemps y) dayOfYear (maxTemp !! index) |})
            year yearlyData
  | None => yearlyData
  end.

Definition yearlyData {R : Reading} (d : SpartacusResult) : gmap string YearData :=
  Js.forEach (fillDay (TN d) (TX d))
    (Js.forEach initYear ∅ (timestamps d)) (timestamps d).

(** [Object.keys(yearlyData).sort()].  The order in which [Object.keys]
    lists the keys is immaterial: they are sorted at once. *)
Definition years (yd : gmap string YearData) : list string :=
  Js.sort (elements (dom yd)).

Definition minTempsOf (yd : gmap string YearData) (year : string) : list cell :=
  default [] (minTemps <$> yd !! year).

Definition maxTempsOf (yd : gmap string YearData) (year : string) : list cell :=
  default [] (maxTemps <$> yd !! year).

(** [(1 - baseOpacity * (years.length - index)) * 0.6 + 0.4] where
    [baseOpacity = 1 / years.length], computed as the browser computes it,
    in binary64; [0x1.3333333333333p-1] and [0x1.999999999999ap-2] are the
    numbers the literals [0.6] and [0.4] denote. *)
Definition fading (len index : float) : float :=
  let baseOpacity := (1 / len)%float in
  ((1 - baseOpacity * (len - index))
   * 0x1.3333333333333p-1 + 0x1.999999999999ap-2)%float.

(** The same at the integers [years.length] and [index]. *)
Definition fade (len index : Z) : float :=
  fading (Js.number len) (Js.number index).

(** [let opacity = (1 - baseOpacity * (years.length - index)) * 0.6 + 0.4;
     if (index == years.length - 1) opacity = 1;] *)
Definition opacity (len index : nat) : float :=
  let opacity := fade (Z.of_nat len) (Z.of_nat index) in
  if index =? len - 1 then 1%float else opacity.

Definition isFirstOrLast (len index : nat) : bool :=
  (index =? 0) || (index =? len - 1).

Definition minDataset (yd : gmap string YearData) (len : nat)
    (year : string) (index : nat) : Dataset :=
  {| label := "Min Temp " +:+ year;
     data := minTempsOf yd year;
     borderColor := if index =? len - 1 then rgba 54 100 235 1%float
                    else rgba 54 162 235 (opacity len index);
     borderWidth := Some (if index =? len - 1 then 2 else 1);
     fill := false;
     pointRadius := None |}.

Definition maxDataset (yd : gmap string YearData) (len : nat)
    (year : string) (index : nat) : Dataset :=
  {| label := "Max Temp " +:+ year;
     data := maxTempsOf yd year;
     borderColor := if index =? len - 1 then rgba 255 50 50 1%float
                    else rgba 255 99 132 (opacity len index);
     borderWidth := Some (if index =? len - 1 then 2 else 1);
     fill := false;
     pointRadius := None |}.

(** The callback of the first [years.forEach]. *)
Definition pushMin (firstLastYear minTemp : bool)
    (yd : gmap string YearData) (len : nat)
    (datasets : list Dataset) (year : string) (index : nat) : list Dataset :=
  if firstLastYear && negb (isFirstOrLast len index) then datasets
  else if minTemp then datasets ++ [minDataset yd len year index]
  else datasets.

(** The callback of the second [years.forEach]. *)
Definition pushMax (firstLastYear maxTemp : bool)
    (yd : gmap string YearData) (len : nat)
    (datasets : list Dataset) (year : string) (index : nat) : list Dataset :=
  if firstLastYear && negb (isFirstOrLast len index) then datasets
  else if maxTemp then datasets ++ [maxDataset yd len year index]
  else datasets.

Definition datasets {R : Reading} (firstLastYear minTemp maxTemp : bool)
    (d : SpartacusResult) : list Dataset :=
  let yd := yearlyData d in
  let years := years yd in
  let len := length years in
  Js.forEach (pushMax firstLastYear maxTemp yd len)
    (Js.forEach (pushMin firstLastYear minTemp yd len) [] years) years.

(** Both arrays of every bucket have between [lo] and [hi] elements. *)
Definition bucketsWithin (lo hi : nat) (yd : gmap string YearData) : Prop :=
  ∀ year y, yd !! year = Some y ->
    lo <= length (minTemps y) <= hi ∧ lo <= length (maxTemps y) <= hi.

(** No element of the array is [undefined]: each is a number or [null]. *)
Definition filled (a : list cell) : Prop := Forall is_Some a.

(** The series covers exactly the years [ys]: these are the year texts
    of its timestamps. *)
Definition covers {R : Reading} (d : SpartacusResult) (ys : list string) : Prop :=
  ∀ y, y ∈ yearOf <$> timestamps d ↔ y ∈ ys.

(** [Array.from({ length: 365 }, (_, i) =>
      moment("0000-01-01").add(i, "days").format("MMM D"))].  The text is a
    date without time, which every browser reads as written. *)
Definition labels : list string :=
  Js.array_from 365 (fun i =>
    Moment.formatMMMD (Moment.addDays i <$> Moment.parse "0000-01-01")).

End Stack.

(** ** The opacities of the stacked view *)

Module Fading.

(** The opacities of a list of datasets, in order. *)
Definition opacities (ds : list Dataset) : list float :=
  (fun d => alpha (borderColor d)) <$> ds.

(** The labels of a list of datasets, each with its opacity. *)
Definition labelled (ds : list Dataset) : list (string * float) :=
  (fun d => (label d, alpha (borderColor d))) <$> ds.

(** The opacities the two loops compute for [len] years, from the oldest
    to the most recent. *)
Definition ofYears (len : nat) : list float :=
  Stack.opacity len <$> seq 0 len.

(** C3 in the words of the specification, for the minimum series alone:
    with N the number of retained years, which are the datasets shown, the
    most recent has opacity 1 and an older one at ascending index i among
    them has the opacity of the formula at N and i, computed as the browser
    computes it. *)
Definition byRetainedYears {R : Reading} (firstLastYear : bool)
    (d : SpartacusResult) : Prop :=
  let shown := Stack.datasets firstLastYear true false d in
  opacities shown = ofYears (length shown).

(** The floor of the specification, [0.4]. *)
Definition floor : float := 0x1.999999999999ap-2.

(** Whether the fading of [len] years is at least the floor at the [k]
    indices from [index] on; the counts are machine integers. *)
Fixpoint flooredFrom (k : nat) (len index : int) : bool :=
  match k with
  | O => true
  | S k' => PrimFloat.leb floor
              (Stack.fading (PrimFloat.of_uint63 len) (PrimFloat.of_uint63 index))
            && flooredFrom k' len (Uint63.add index 1)
  end.

(** Whether it is so at every index below the length, for the [k] lengths
    from [n] on; [len] is [n] as a machine integer. *)
Fixpoint flooredLengths (k n : nat) (len : int) : bool :=
  match k with
  | O => true
  | S k' => flooredFrom n len 0 && flooredLengths k' (S n) (Uint63.add len 1)
  end.

End Fading.


(** The datasets of the view that does not stack years. *)
Definition plainDatasets (minTemp maxTemp : bool) (d : SpartacusResult)
    : list Dataset :=
  (if minTemp
   then [{| label := "Min. Temp"; data := Some <$> TN d;
            borderColor := rgba 54 162 235 1%float; borderWidth := None;
            fill := false; pointRadius := None |}]
   else []) ++
  (if maxTemp
   then [{| label := "Max. Temp"; data := Some <$> TX d;
            borderColor := rgba 255 99 132 1%float; borderWidth := None;
            fill := false; pointRadius := None |}]
   else []).

(** ** The chart projection [createChart] *)

Module Chart.

(** A [Chart] instance: its identity, what it displays, and how often
    [update()] was called on it.  The options other than the day format
    are fixed at construction and play no part below. *)
Record t := mk {
  id : nat;
  labels : list string;
  datasets : list Dataset;
  dayFormat : string;
  updates : nat
}.

End Chart.

(** The canvases of the document: the chart kept in the [__chart] property
    of each canvas, and the canvases handed to [new Chart], oldest first. *)
Record Canvases := {
  bound : gmap nat Chart.t;
  constructed : list nat
}.

(** [dataset.pointRadius = 0; if (!dataset.borderWidth) dataset.borderWidth = 1;] *)
Definition normalize (d : Dataset) : Dataset :=
  {| label := label d;
     data := data d;
     borderColor := borderColor d;
     borderWidth := match borderWidth d with
                    | Some (S n) => Some (S n)
                    | _ => Some 1
                    end;
     fill := fill d;
     pointRadius := Some 0 |}.

Definition createChart (canvas : nat) (labels : list string)
    (datasets : list Dataset) (dateFormat : string) (w : Canvases) : Canvases :=
  let datasets := normalize <$> datasets in
  match bound w !! canvas with
  | Some chart =>
      {| bound := <[canvas := Chart.mk (Chart.id chart) labels datasets dateFormat
                                (S (Chart.updates chart))]> (bound w);
         constructed := constructed w |}
  | None =>
      {| bound := <[canvas := Chart.mk (length (constructed w)) labels datasets
                                dateFormat 0]> (bound w);
         constructed := constructed w ++ [canvas] |}
  end.

(** A call of [createChart]: the canvas, the labels, the datasets and the
    date format. *)
Definition Call : Type := nat * list string * list Dataset * string.

Definition createChartCall (w : Canvases) (c : Call) : Canvases :=
  let '(canvas, labels, datasets, dateFormat) := c in
  createChart canvas labels datasets dateFormat w.

(** A run of calls, from the oldest to the latest. *)
Definition createCharts (calls : list Call) (w : Canvases) : Canvases :=
  foldl createChartCall w calls.

(** The calls of a run that are made on [canvas]. *)
Definition callsOn (canvas : nat) (calls : list Call) : list Call :=
  filter (fun c : Call => c.1.1.1 = canvas) calls.

(** A document none of whose canvases has a chart yet. *)
Definition blank : Canvases := {| bound := ∅; constructed := [] |}.

(** Every canvas handed to [new Chart] holds a chart, every canvas that
  holds a chart was handed to [new Chart], and none was handed twice. *)
Definition chartsInv (w : Canvases) : Prop :=
  NoDup (constructed w) ∧
  ∀ canvas, canvas ∈ constructed w ↔ is_Some (bound w !! canvas).

(** ** The default date range *)

Module Date.

(** A JavaScript [Date] in local time; [getMonth] counts from 0 and
    [getDate] from 1. *)
Record t := mk { getFullYear : nat; getMonth : nat; getDate : nat }.

End Date.

Definition dateString (date : Date.t) : string :=
  Js.toString (Date.getFullYear date) +:+ "-" +:+
  Js.padStart 2 "0" (Js.toString (Date.getMonth date + 1)) +:+ "-" +:+
  Js.padStart 2 "0" (Js.toString (Date.getDate date + 1)).

(** [startDate = new Date(new Date().getFullYear() - 2, 0, 1)] and
    [endDate = new Date()], where [today] is what [new Date()] returns. *)
Definition startDate (today : Date.t) : Date.t :=
  Date.mk (Date.getFullYear today - 2) 0 1.

Definition endDate (today : Date.t) : Date.t := today.

(** The [value] attributes [render] writes into the two date inputs. *)
Definition startDateValue (today : Date.t) : string := dateString (startDate today).
Definition endDateValue (today : Date.t) : string := dateString (endDate today).

(** ** The page [MainPage] *)

(** What the environment answers to a [fetch]: the request is rejected, or a
    response arrives with its [ok] flag and a body, [None] when [json()]
    rejects. *)
Inductive Response (T : Type) :=
  | NetworkError
  | Reply (ok : bool) (json : option T).
Arguments NetworkError {T}.
Arguments Reply {T} ok json.

Inductive Request :=
  | Timeseries (start finish : string) (lat lng : Q)
  | Search (q : string).

(** What the page does that can be observed from outside its fields. *)
Inductive Effect :=
  | SetError (v : string)
  | SetLoading (v : bool)
  | SetData
  | SetSearchResults
  | Fetch (r : Request)
  | ConsoleLog
  | CallRenderCharts.

Module MainPage.

(** The inputs the page queries from its document. *)
Record Form := {
  address : string;
  startDateInput : string;
  endDateInput : string;
  stackYears : bool;
  firstLastYear : bool;
  minTemp : bool;
  maxTemp : bool
}.

Record t := {
  form : Form;
  chart : nat;
  lat : Q;
  lng : Q;
  isLoading : bool;
  error : option string;
  searchResults : list GeocodingResult;
  data : option SpartacusResult;
  canvases : Canvases;
  trace : list Effect
}.

Definition whoopsies : string := "Whoopsies, da hat etwas nicht funktioniert".

(** [${this.error ? renderError(this.error) : ""}]: the banner [render]
    shows; the empty text is falsy. *)
Definition banner (p : t) : option string :=
  match error p with
  | Some "" => None
  | Some msg => Some msg
  | None => None
  end.

(** *** Computations of the page: state passing, [None] for a thrown
    exception *)

Definition M (A : Type) : Type := t -> option A * t.

#[export] Instance M_ret : MRet M := fun A a p => (Some a, p).

#[export] Instance M_bind : MBind M := fun A B k m p =>
  match m p with
  | (Some a, p') => k a p'
  | (None, p') => (None, p')
  end.

Definition throw {A} : M A := fun p => (None, p).

Definition get : M t := fun p => (Some p, p).

(** [try { body } catch (e) { handler } finally { final }] *)
Definition tryCatchFinally (body handler final : M ()) : M () := fun p =>
  match body p with
  | (Some _, p1) => final p1
  | (None, p1) =>
      match handler p1 with
      | (r, p2) =>
          match final p2 with
          | (Some _, p3) => (r, p3)
          | (None, p3) => (None, p3)
          end
      end
  end.

Definition emit (e : Effect) : M () := fun p =>
  (Some (),
   {| form := form p; chart := chart p; lat := lat p; lng := lng p;
      isLoading := isLoading p; error := error p;
      searchResults := searchResults p; data := data p;
      canvases := canvases p; trace := trace p ++ [e] |}).

Definition setError (v : string) : M () := fun p =>
  (Some (),
   {| form := form p; chart := chart p; lat := lat p; lng := lng p;
      isLoading := isLoading p; error := Some v;
      searchResults := searchResults p; data := data p;
      canvases := canvases p; trace := trace p ++ [SetError v] |}).

Definition setLoading (v : bool) : M () := fun p =>
  (Some (),
   {| form := form p; chart := chart p; lat := lat p; lng := lng p;
      isLoading := v; error := error p;
      searchResults := searchResults p; data := data p;
      canvases := canvases p; trace := trace p ++ [SetLoading v] |}).

Definition setData (v : SpartacusResult) : M () := fun p =>
  (Some (),
   {| form := form p; chart := chart p; lat := lat p; lng := lng p;
      isLoading := isLoading p; error := error p;
      searchResults := searchResults p; data := Some v;
      canvases := canvases p; trace := trace p ++ [SetData] |}).

Definition setSearchResults (v : list GeocodingResult) : M () := fun p =>
  (Some (),
   {| form := form p; chart := chart p; lat := lat p; lng := lng p;
      isLoading := isLoading p; error := error p;
      searchResults := v; data := data p;
      canvases := canvases p; trace := trace p ++ [SetSearchResults] |}).

Definition onCanvases (f : Canvases -> Canvases) : M () := fun p =>
  (Some (),
   {| form := form p; chart := chart p; lat := lat p; lng := lng p;
      isLoading := isLoading p; error := error p;
      searchResults := searchResults p; data := data p;
      canvases := f (canvases p); trace := trace p |}).

(** [await fetch(url)]: the request goes out, and the environment's answer
    [r] decides how the call returns. *)
Definition fetch {T} (req : Request) (r : Response T) : M (bool * option T) :=
  emit (Fetch req);;
  match r with
  | NetworkError => throw
  | Reply ok json => mret (ok, json)
  end.

(** [await response.json()] *)
Definition json {T} (body : option T) : M T :=
  match body with
  | Some v => mret v
  | None => throw
  end.

Definition renderCharts : M () :=
  emit CallRenderCharts;;
  p ← get;
  match data p with
  | None => mret ()
  | Some d =>
      let f := form p in
      if stackYears f
      then onCanvases (createChart (chart p) Stack.labels
             (Stack.datasets (firstLastYear f) (minTemp f) (maxTemp f) d) "DD-MM")
      else onCanvases (createChart (chart p) (timestamps d)
             (plainDatasets (minTemp f) (maxTemp f) d) "YYYY-MM-DD")
  end.

(** The [try] statement of [loadData], entered from the page [p] whose
    fields the request is built from. *)
Definition loadTry (r : Response SpartacusResult) (p : t) : M () :=
  let f := form p in
  tryCatchFinally
    (setLoading true;;
     let startDate := startDateInput f +:+ "T00:00:00.000Z" in
     let endDate := endDateInput f +:+ "T00:00:00.000Z" in
     '(ok, body) ← fetch (Timeseries startDate endDate (lat p) (lng p)) r;
     if negb ok then throw
     else d ← json body; setData d;; renderCharts)
    (setError whoopsies;; emit ConsoleLog)
    (setLoading false).

Definition loadData (r : Response SpartacusResult) : M () :=
  setError "";;
  p ← get;
  let f := form p in
  if (String.length (startDateInput f) =? 0) || (String.length (endDateInput f) =? 0)
  then mret ()
  else loadTry r p.

(** [s.trim()].  A text is the sequence of its UTF-8 bytes.  What is
    stripped is the white space and the line terminators of ECMAScript:
    in one byte TAB, LF, VT, FF, CR and the space; in two bytes U+00A0; in
    three bytes U+1680, U+2000 to U+200A, U+2028, U+2029, U+202F, U+205F,
    U+3000 and U+FEFF. *)
Definition space1 (a : ascii) : bool :=
  match nat_of_ascii a with
  | 9 | 10 | 11 | 12 | 13 | 32 => true
  | _ => false
  end.

Definition space2 (a b : ascii) : bool :=
  match nat_of_ascii a, nat_of_ascii b with
  | 194, 160 => true
  | _, _ => false
  end.

Definition space3 (a b c : ascii) : bool :=
  match nat_of_ascii a, nat_of_ascii b, nat_of_ascii c with
  | 225, 154, 128 => true
  | 226, 128, n => (128 <=? n) && (n <=? 138)
                   || (n =? 168) || (n =? 169) || (n =? 175)
  | 226, 129, 159 => true
  | 227, 128, 128 => true
  | 239, 187, 191 => true
  | _, _, _ => false
  end.

Fixpoint trimStart (s : string) : string :=
  match s with
  | String a s1 =>
      if space1 a then trimStart s1
      else match s1 with
           | String b s2 =>
               if space2 a b then trimStart s2
               else match s2 with
                    | String c s3 => if space3 a b c then trimStart s3 else s
                    | "" => s
                    end
           | "" => s
           end
  | "" => ""
  end.

(** [trimStart] on the bytes in reverse order. *)
Fixpoint trimReversed (s : string) : string :=
  match s with
  | String a s1 =>
      if space1 a then trimReversed s1
      else match s1 with
           | String b s2 =>
               if space2 b a then trimReversed s2
               else match s2 with
                    | String c s3 => if space3 c b a then trimReversed s3 else s
                    | "" => s
                    end
           | "" => s
           end
  | "" => ""
  end.

Definition trim (s : string) : string :=
  String.rev (trimReversed (String.rev (trimStart s))).

Definition search (r : Response (list GeocodingResult)) : M () :=
  tryCatchFinally
    (p ← get;
     let address := trim (address (form p)) in
     '(ok, body) ← fetch (Search address) r;
     if negb ok then throw
     else results ← json body; setSearchResults (take 3 results))
    (setError whoopsies;; emit ConsoleLog)
    (setLoading false).

(** The trace of a failed load, after the one it started from. *)
Definition failureTrace (p : t) : list Effect :=
  [ SetError "";
    SetLoading true;
    Fetch (Timeseries (startDateInput (form p) +:+ "T00:00:00.000Z")
                      (endDateInput (form p) +:+ "T00:00:00.000Z") (lat p) (lng p));
    SetError whoopsies;
    ConsoleLog;
    SetLoading false ].

(** The requests a trace contains. *)
Definition requests (tr : list Effect) : list Request :=
  omap (fun e => match e with Fetch r => Some r | _ => None end) tr.

(** A fetch that fails: the request is rejected or the status is not a
    success. *)
Definition failed {T} (r : Response T) : bool :=
  match r with
  | NetworkError => true
  | Reply ok _ => negb ok
  end.

(** C6 in the words of the specification: after a failed search the
    generic message is displayed and the list of results is empty. *)
Definition failed_search_clears_results
    (r : Response (list GeocodingResult)) (p : t) : Prop :=
  failed r = true ->
  banner (search r p).2 = Some whoopsies ∧ searchResults (search r p).2 = [].

End MainPage.

(** ** The slot of a sample *)

Module Bucket.

(** Where the second loop of [renderCharts] stores the sample of a
    timestamp: the year text and the index [dayOfYear - 1]; [None] for an
    invalid moment, whose sample reaches no array element. *)
Definition slotOf {R : Reading} (date : string) : option (string * nat) :=
  m ← moment date; Some (Stack.yearOf date, Moment.dayOfYear m - 1).

(** [yearlyData[year].minTemps[index]] and [...maxTemps[index]]; the outer
    [None] is [undefined]. *)
Definition minAt (yd : gmap string YearData) (slot : string * nat) : option cell :=
  Stack.minTempsOf yd slot.1 !! slot.2.

Definition maxAt (yd : gmap string YearData) (slot : string * nat) : option cell :=
  Stack.maxTempsOf yd slot.1 !! slot.2.

End Bucket.

(** ** The map of the page *)

Module Leaflet.

(** A marker: which one it is and where it stands. *)
Record Marker := { id : nat; position : Q * Q }.

(** A map: its view, its tile layers, the markers that are on it, and the
    number of markers created so far. *)
Record Map := {
  center : Q * Q;
  zoom : nat;
  tileLayers : list string;
  markers : list Marker;
  made : nat
}.

(** [L.map("map").setView(center, zoom)] *)
Definition create (c : Q * Q) (z : nat) : Map :=
  {| center := c; zoom := z; tileLayers := []; markers := []; made := 0 |}.

(** [L.tileLayer(url, ...).addTo(map)] *)
Definition addTileLayer (url : string) (m : Map) : Map :=
  {| center := center m; zoom := zoom m; tileLayers := tileLayers m ++ [url];
     markers := markers m; made := made m |}.

(** [map.setView(center)]: the zoom is kept. *)
Definition setView (c : Q * Q) (m : Map) : Map :=
  {| center := c; zoom := zoom m; tileLayers := tileLayers m;
     markers := markers m; made := made m |}.

(** [L.marker(position).addTo(map)]: a new marker, put on the map. *)
Definition addMarker (pos : Q * Q) (m : Map) : Marker * Map :=
  let marker := {| id := made m; position := pos |} in
  (marker,
   {| center := center m; zoom := zoom m; tileLayers := tileLayers m;
      markers := markers m ++ [marker]; made := S (made m) |}).

(** [marker.remove()] *)
Definition removeMarker (marker : Marker) (m : Map) : Map :=
  {| center := center m; zoom := zoom m; tileLayers := tileLayers m;
     markers := filter (fun x => id x ≠ id marker) (markers m);
     made := made m |}.

End Leaflet.

(** ** The page with its map, and the events it handles *)

Module App.

Import MainPage.

(** The fields of the class as it is constructed, for a document whose
    inputs read [f] and whose canvas [canvas] has no chart. *)
Definition initial (f : Form) (canvas : nat) : MainPage.t :=
  {| form := f; chart := canvas;
     lat := 4765439560092274 # 100000000000000;
     lng := 13502197265625002 # 1000000000000000;
     isLoading := false; error := None; searchResults := []; data := None;
     canvases := blank; trace := [] |}.

Definition withForm (f : Form) (p : MainPage.t) : MainPage.t :=
  {| form := f; chart := chart p; lat := lat p; lng := lng p;
     isLoading := isLoading p; error := error p;
     searchResults := searchResults p; data := data p;
     canvases := canvases p; trace := trace p |}.

(** [this.lat = ...; this.lng = ...;] *)
Definition withCoordinate (latitude longitude : Q) (p : MainPage.t) : MainPage.t :=
  {| form := form p; chart := chart p; lat := latitude; lng := longitude;
     isLoading := isLoading p; error := error p;
     searchResults := searchResults p; data := data p;
     canvases := canvases p; trace := trace p |}.

(** The page together with its fields [map] and [marker]. *)
Record t := {
  page : MainPage.t;
  map : Leaflet.Map;
  marker : option Leaflet.Marker
}.

(** Runs a computation of the page from an event handler.  The methods are
    [async] and the handlers do not await them: an exception they throw
    rejects a promise nobody looks at, and the fields stay as the method
    left them. *)
Definition run (m : M ()) (s : t) : t :=
  {| page := (m (page s)).2; map := map s; marker := marker s |}.

Definition setMarker (s : t) : t :=
  let p := page s in
  let pos := (lat p, lng p) in
  let m1 := Leaflet.setView pos (map s) in
  let m2 := match marker s with
            | Some old => Leaflet.removeMarker old m1
            | None => m1
            end in
  let '(new, m3) := Leaflet.addMarker pos m2 in
  {| page := (setError "" p).2; map := m3; marker := Some new |}.

Definition tiles : string := "https://tile.openstreetmap.org/{z}/{x}/{y}.png".

(** [firstUpdated]: the map is created on the initial coordinate at zoom 7
    with its tile layer, the marker is set and the series is loaded; [r] is
    the answer to the fetch. *)
Definition firstUpdated (p : MainPage.t) (r : Response SpartacusResult) : t :=
  let m := Leaflet.addTileLayer tiles (Leaflet.create (lat p, lng p) 7) in
  run (loadData r) (setMarker {| page := p; map := m; marker := None |}).

(** The handler of a click on the map. *)
Definition clickMap (latitude longitude : Q) (r : Response SpartacusResult)
    (s : t) : t :=
  run (loadData r)
    (setMarker {| page := withCoordinate latitude longitude (page s);
                  map := map s; marker := marker s |}).

(** What the user can do with the document [render] produces.  An event
    that leads to a fetch carries the answer the fetch will get. *)
Inductive Event :=
  | ChangeStartDate (v : string) (r : Response SpartacusResult)
  | ChangeEndDate (v : string) (r : Response SpartacusResult)
  | ToggleStackYears
  | ToggleFirstLastYear
  | ToggleMinTemp
  | ToggleMaxTemp
  | TypeAddress (v : string)
  | PressSearch (r : Response (list GeocodingResult))
  | ClickMap (latitude longitude : Q) (r : Response SpartacusResult).

(** The document after the user's edit, before any handler runs. *)
Definition edited (e : Event) (f : Form) : Form :=
  match e with
  | ChangeStartDate v _ =>
      {| address := address f; startDateInput := v;
         endDateInput := endDateInput f; stackYears := stackYears f;
         firstLastYear := firstLastYear f; minTemp := minTemp f;
         maxTemp := maxTemp f |}
  | ChangeEndDate v _ =>
      {| address := address f; startDateInput := startDateInput f;
         endDateInput := v; stackYears := stackYears f;
         firstLastYear := firstLastYear f; minTemp := minTemp f;
         maxTemp := maxTemp f |}
  | ToggleStackYears =>
      {| address := address f; startDateInput := startDateInput f;
         endDateInput := endDateInput f; stackYears := negb (stackYears f);
         firstLastYear := firstLastYear f; minTemp := minTemp f;
         maxTemp := maxTemp f |}
  | ToggleFirstLastYear =>
      {| address := address f; startDateInput := startDateInput f;
         endDateInput := endDateInput f; stackYears := stackYears f;
         firstLastYear := negb (firstLastYear f); minTemp := minTemp f;
         maxTemp := maxTemp f |}
  | ToggleMinTemp =>
      {| address := address f; startDateInput := startDateInput f;
         endDateInput := endDateInput f; stackYears := stackYears f;
         firstLastYear := firstLastYear f; minTemp := negb (minTemp f);
         maxTemp := maxTemp f |}
  | ToggleMaxTemp =>
      {| address := address f; startDateInput := startDateInput f;
         endDateInput := endDateInput f; stackYears := stackYears f;
         firstLastYear := firstLastYear f; minTemp := minTemp f;
         maxTemp := negb (maxTemp f) |}
  | TypeAddress v =>
      {| address := v; startDateInput := startDateInput f;
         endDateInput := endDateInput f; stackYears := stackYears f;
         firstLastYear := firstLastYear f; minTemp := minTemp f;
         maxTemp := maxTemp f |}
  | PressSearch _ => f
  | ClickMap _ _ _ => f
  end.

(** The handlers [render] binds: a change of a date input calls [loadData],
    a change of a checkbox calls [renderCharts], the search button and the
    Enter key call [search], a click on the map runs its handler; typing an
    address calls nothing. *)
Definition handle (s : t) (e : Event) : t :=
  let s' := {| page := withForm (edited e (form (page s))) (page s);
               map := map s; marker := marker s |} in
  match e with
  | ChangeStartDate _ r | ChangeEndDate _ r => run (loadData r) s'
  | ToggleStackYears | ToggleFirstLastYear | ToggleMinTemp | ToggleMaxTemp =>
      run renderCharts s'
  | TypeAddress _ => s'
  | PressSearch r => run (search r) s'
  | ClickMap latitude longitude r => clickMap latitude longitude r s'
  end.

(** A session: the events in the order they happen. *)
Definition handleAll (es : list Event) (s : t) : t := foldl handle s es.

(** The request [loadData] issues on the page [p]: none when a date field
    is empty. *)
Definition timeseriesRequest (p : MainPage.t) : list Request :=
  if bool_decide (startDateInput (form p) = "")
     || bool_decide (endDateInput (form p) = "")
  then []
  else [ Timeseries (startDateInput (form p) +:+ "T00:00:00.000Z")
                    (endDateInput (form p) +:+ "T00:00:00.000Z")
                    (lat p) (lng p) ].

(** The requests an event leads to. *)
Definition expected (s : t) (e : Event) : list Request :=
  let p := withForm (edited e (form (page s))) (page s) in
  match e with
  | ChangeStartDate _ _ | ChangeEndDate _ _ => timeseriesRequest p
  | ClickMap latitude longitude _ =>
      timeseriesRequest (withCoordinate latitude longitude p)
  | PressSearch _ => [ Search (trim (address (form p))) ]
  | _ => []
  end.

(** The marker of the page is the one marker on the map, and it stands,
    like the centre of the map, on the current coordinate. *)
Definition markerOk (s : t) : Prop :=
  ∃ m, marker s = Some m ∧
       Leaflet.markers (map s) = [ m ] ∧
       Leaflet.position m = (lat (page s), lng (page s)) ∧
       Leaflet.center (map s) = (lat (page s), lng (page s)) ∧
       Leaflet.id m < Leaflet.made (map s).

(** What holds between the events of a session on a page whose canvas is
    [canvas]. *)
Definition sessionInv (canvas : nat) (s : t) : Prop :=
  chart (page s) = canvas ∧
  isLoading (page s) = false ∧
  length (searchResults (page s)) <= 3 ∧
  markerOk s ∧
  Leaflet.zoom (map s) = 7 ∧
  Leaflet.tileLayers (map s) = [ tiles ] ∧
  chartsInv (canvases (page s)) ∧
  (∀ c, c ∈ constructed (canvases (page s)) -> c = canvas).

(** Whether the event changes a checkbox. *)
Definition isToggle (e : Event) : bool :=
  match e with
  | ToggleStackYears | ToggleFirstLastYear | ToggleMinTemp | ToggleMaxTemp => true
  | _ => false
  end.

End App.

(** ** Concrete inputs *)

Module Sample.

Definition wien : GeocodingResult :=
  {| geo_lat := "48.2083537"; geo_lon := "16.3725042"; display_name := "Wien" |}.

(** A page as it stands after start-up, with the given date fields, error
    and search results, and nothing loaded or drawn yet. *)
Definition page (start finish : string) (err : option string)
    (results : list GeocodingResult) : MainPage.t :=
  {| MainPage.form :=
       {| MainPage.address := " Wien ";
          MainPage.startDateInput := start;
          MainPage.endDateInput := finish;
          MainPage.stackYears := true;
          MainPage.firstLastYear := true;
          MainPage.minTemp := true;
          MainPage.maxTemp := true |};
     MainPage.chart := 0;
     MainPage.lat := 4765 # 100;
     MainPage.lng := 1350 # 100;
     MainPage.isLoading := false;
     MainPage.error := err;
     MainPage.searchResults := results;
     MainPage.data := None;
     MainPage.canvases := {| bound := ∅; constructed := [] |};
     MainPage.trace := [] |}.

(** The last two days of the leap year 2020 and the first of 2021. *)
Definition turnOfYear : SpartacusResult :=
  {| timestamps := [ "2020-12-30T00:00+00:00";
                     "2020-12-31T00:00+00:00";
                     "2021-01-01T00:00+00:00" ];
     TN := [ Num (-3); Num (-2); Null ];
     TX := [ Num 3; Num 4; Num 5 ] |}.

End Sample.

(** ** More concrete inputs *)

Module Example.

(** New Year's Day 2021 and the day after. *)
Definition oneYear : SpartacusResult :=
  {| timestamps := [ "2021-01-01T00:00+00:00"; "2021-01-02T00:00+00:00" ];
     TN := [ Num (-5); Null ];
     TX := [ Num 1; Num 2 ] |}.

(** Three years, the latest first, and one day reported twice. *)
Definition threeYears : SpartacusResult :=
  {| timestamps := [ "2022-03-01T00:00+00:00"; "2020-03-01T00:00+00:00";
                     "2021-03-01T00:00+00:00"; "2020-03-01T00:00+00:00" ];
     TN := [ Num 2; Num 0; Num 1; Num 10 ];
     TX := [ Num 12; Num 10; Num 11; Num 20 ] |}.


(** Noon of the first of July of the 49 years from 1961 on: the same day
    in every time zone from twelve hours behind Greenwich to eleven ahead. *)
Definition fortyNineYears : SpartacusResult :=
  {| timestamps := (fun y => Js.toString y +:+ "-07-01T12:00+00:00") <$> seq 1961 49;
     TN := replicate 49 (Num 12);
     TX := replicate 49 (Num 24) |}.

(** The address [Wien] as a user may paste it: after a no-break space
    (U+00A0) and a space, and before a tab, a line separator (U+2028) and a
    byte order mark (U+FEFF). *)
Definition utf8 (bytes : list nat) : string :=
  string_of_list_ascii (ascii_of_nat <$> bytes).

Definition pastedAddress : string :=
  utf8 [ 194; 160; 32 ] +:+ "Wien" +:+ utf8 [ 9; 226; 128; 168; 239; 187; 191 ].

(** Two draws on canvas 0 with one on canvas 1 in between. *)
Definition calls : list Call :=
  [ (0, timestamps oneYear, plainDatasets true true oneYear, "YYYY-MM-DD");
    (1, [], [], "DD-MM");
    (0, Stack.labels, Stack.datasets true true false oneYear, "DD-MM") ].

Definition form (start finish : string) : MainPage.Form :=
  {| MainPage.address := "";
     MainPage.startDateInput := start;
     MainPage.endDateInput := finish;
     MainPage.stackYears := true;
     MainPage.firstLastYear := true;
     MainPage.minTemp := true;
     MainPage.maxTemp := true |}.

End Example.

(** * Properties *)

(** Runs the page's computations down to the state they produce, leaving
    [renderCharts] folded. *)
Ltac run_page :=
  repeat progress
    (unfold MainPage.tryCatchFinally, mbind, MainPage.M_bind, MainPage.fetch,
       MainPage.json, MainPage.emit, MainPage.setLoading, MainPage.setData,
       MainPage.setSearchResults, MainPage.setError, MainPage.throw, mret,
       MainPage.M_ret, MainPage.get;
     cbv beta iota zeta;
     cbn [negb fst snd MainPage.form MainPage.chart MainPage.lat MainPage.lng
          MainPage.isLoading MainPage.error MainPage.searchResults
          MainPage.data MainPage.canvases MainPage.trace]).

(** ** Loading the series *)

Section LoadData.

Import MainPage.

Lemma length_eqb_0 (s : string) : (String.length s =? 0) = bool_decide (s = "").
Proof. destruct s; reflexivity. Qed.

Lemma requests_app (a b : list Effect) :
  requests (a ++ b) = requests a ++ requests b.
Proof. unfold requests. apply omap_app. Qed.

(** With an empty date field [loadData] does one thing: it assigns the
    empty text to [error]. *)
Lemma loadData_skip (r : Response SpartacusResult) (p : t) :
  startDateInput (form p) = "" ∨ endDateInput (form p) = "" ->
  loadData r p = setError "" p.
Proof.
  intros H. unfold loadData, mbind, M_bind, get.
  cbn [setError form]. rewrite !length_eqb_0.
  destruct H as [-> | ->]; cbn [bool_decide decide_rel orb];
    [ reflexivity | ].
  rewrite orb_true_r. reflexivity.
Qed.

(** [renderCharts] returns normally and touches only the canvases and the
    trace. *)
Lemma renderCharts_frame (p : t) :
  ∃ w, renderCharts p =
    (Some (),
     {| form := form p; chart := chart p; lat := lat p; lng := lng p;
        isLoading := isLoading p; error := error p;
        searchResults := searchResults p; data := data p;
        canvases := w; trace := trace p ++ [CallRenderCharts] |}).
Proof.
  unfold renderCharts, mbind, M_bind, get, emit. cbn [data form chart].
  destruct (data p) as [d|]; [ destruct (stackYears (form p)) | ];
    eexists; reflexivity.
Qed.

Lemma loadData_attempt (r : Response SpartacusResult) (p : t) :
  startDateInput (form p) ≠ "" -> endDateInput (form p) ≠ "" ->
  loadData r p = loadTry r (setError "" p).2 (setError "" p).2.
Proof.
  intros Hs He. unfold loadData, mbind at 1 2, M_bind at 1 2, get.
  cbn [setError form lat lng snd]. rewrite !length_eqb_0.
  rewrite !bool_decide_eq_false_2 by assumption. reflexivity.
Qed.

(** C4.  When the start-date or the end-date field is empty, [loadData]
    returns normally without issuing a request: the trace gains the
    clearing of [error] and nothing else, no fetch is added to the
    requests, no banner is displayed, and the loading flag, the series and
    the canvases are as before. *)
Theorem loadData_empty_field_skips_fetch (r : Response SpartacusResult) (p : t) :
  startDateInput (form p) = "" ∨ endDateInput (form p) = "" ->
  (loadData r p).1 = Some () ∧
  trace (loadData r p).2 = trace p ++ [SetError ""] ∧
  requests (trace (loadData r p).2) = requests (trace p) ∧
  banner (loadData r p).2 = None ∧
  isLoading (loadData r p).2 = isLoading p ∧
  data (loadData r p).2 = data p ∧
  canvases (loadData r p).2 = canvases p.
Proof.
  intros H. rewrite (loadData_skip r p H). cbn.
  rewrite requests_app. cbn. rewrite app_nil_r. repeat split; reflexivity.
Qed.

(** C5.  When both date fields are filled in, the loading flag is false
    after [loadData] whatever the answer; and when the fetch fails, [error]
    holds the generic message, which is displayed, the stored series and
    the canvases (hence the rendered chart) are as before, and
    [renderCharts] was not called. *)
Theorem loadData_failure_keeps_chart (r : Response SpartacusResult) (p : t) :
  startDateInput (form p) ≠ "" -> endDateInput (form p) ≠ "" ->
  isLoading (loadData r p).2 = false ∧
  (failed r = true ->
     error (loadData r p).2 = Some whoopsies ∧
     banner (loadData r p).2 = Some whoopsies ∧
     data (loadData r p).2 = data p ∧
     canvases (loadData r p).2 = canvases p ∧
     trace (loadData r p).2 = trace p ++ failureTrace p ∧
     CallRenderCharts ∉ failureTrace p).
Proof.
  intros Hs He. rewrite (loadData_attempt r p Hs He).
  unfold loadTry, failureTrace.
  destruct r as [ | [ | ] body ].
  - run_page. rewrite <- !app_assoc. split; [ reflexivity | intros _ ].
    repeat split; try reflexivity.
    intros H. repeat (apply elem_of_cons in H as [ H | H ]; [ discriminate H | ]).
    by apply elem_of_nil in H.
  - split; [ | intros Hf; discriminate Hf ].
    destruct body as [ d | ]; run_page; [ | reflexivity ].
    match goal with
    | |- context [ renderCharts ?q ] =>
        destruct (renderCharts_frame q) as [ w -> ]
    end.
    reflexivity.
  - run_page. rewrite <- !app_assoc. split; [ reflexivity | intros _ ].
    repeat split; try reflexivity.
    intros H. repeat (apply elem_of_cons in H as [ H | H ]; [ discriminate H | ]).
    by apply elem_of_nil in H.
Qed.

(** C10.  Whatever the fields and the answer, the first thing [loadData]
    does is assign the empty text to [error]; so with an empty date field,
    where the fetch is skipped, [error] is the empty text afterwards and no
    banner is displayed, even if one was before. *)
Theorem loadData_clears_error_first (r : Response SpartacusResult) (p : t) :
  (∃ rest, trace (loadData r p).2 = trace p ++ SetError "" :: rest) ∧
  (startDateInput (form p) = "" ∨ endDateInput (form p) = "" ->
     error (loadData r p).2 = Some "" ∧ banner (loadData r p).2 = None).
Proof.
  split.
  - destruct (decide (startDateInput (form p) = "")) as [ Hs | Hs ];
      [ | destruct (decide (endDateInput (form p) = "")) as [ He | He ] ].
    + exists []. rewrite (loadData_skip r p); [ reflexivity | by left ].
    + exists []. rewrite (loadData_skip r p); [ reflexivity | by right ].
    + rewrite (loadData_attempt r p Hs He). unfold loadTry.
      destruct r as [ | [ | ] [ d | ] ]; run_page;
        try (rewrite <- !app_assoc; eexists; reflexivity).
      match goal with
      | |- context [ renderCharts ?q ] =>
          destruct (renderCharts_frame q) as [ w -> ]
      end.
      cbn [snd trace]. rewrite <- !app_assoc. eexists; reflexivity.
  - intros H. rewrite (loadData_skip r p H). split; reflexivity.
Qed.

Lemma loadData_empty_field_skips_fetch_witness :
  let p := Sample.page "" "2024-03-15" (Some whoopsies) [] in
  (startDateInput (form p) = "" ∨ endDateInput (form p) = "") ∧
  (loadData NetworkError p).1 = Some () ∧
  trace (loadData NetworkError p).2 = trace p ++ [SetError ""] ∧
  requests (trace (loadData NetworkError p).2) = requests (trace p) ∧
  banner (loadData NetworkError p).2 = None ∧
  isLoading (loadData NetworkError p).2 = isLoading p ∧
  data (loadData NetworkError p).2 = data p ∧
  canvases (loadData NetworkError p).2 = canvases p.
Proof.
  intros p. split; [ left; reflexivity | ].
  apply (loadData_empty_field_skips_fetch NetworkError p).
  left; reflexivity.
Defined.

Lemma loadData_failure_keeps_chart_witness :
  let p := Sample.page "2022-01-01" "2024-03-15" None [] in
  let r := Reply false None in
  startDateInput (form p) ≠ "" ∧ endDateInput (form p) ≠ "" ∧
  failed r = true ∧
  isLoading (loadData r p).2 = false ∧
  error (loadData r p).2 = Some whoopsies ∧
  banner (loadData r p).2 = Some whoopsies ∧
  data (loadData r p).2 = data p ∧
  canvases (loadData r p).2 = canvases p ∧
  trace (loadData r p).2 = trace p ++ failureTrace p ∧
  CallRenderCharts ∉ failureTrace p.
Proof.
  intros p r.
  assert (Hs : startDateInput (form p) ≠ "") by discriminate.
  assert (He : endDateInput (form p) ≠ "") by discriminate.
  destruct (loadData_failure_keeps_chart r p Hs He) as [ Hl Hf ].
  split; [ exact Hs | ]. split; [ exact He | ].
  split; [ reflexivity | ]. split; [ exact Hl | ].
  exact (Hf eq_refl).
Defined.

Lemma loadData_clears_error_first_witness :
  let p := Sample.page "2022-01-01" "" (Some whoopsies) [] in
  (startDateInput (form p) = "" ∨ endDateInput (form p) = "") ∧
  banner p = Some whoopsies ∧
  error (loadData NetworkError p).2 = Some "" ∧
  banner (loadData NetworkError p).2 = None.
Proof.
  intros p. split; [ right; reflexivity | ]. split; [ reflexivity | ].
  apply (proj2 (loadData_clears_error_first NetworkError p)).
  right; reflexivity.
Defined.

End LoadData.

(** ** Searching for a place *)

Section Search.

Import MainPage.

(** C6, as stated, fails: a page that displays one result still displays
    it after a search that the network rejects. *)
Lemma failed_search_keeps_results_counterexample :
  ¬ failed_search_clears_results NetworkError
      (Sample.page "2022-01-01" "2024-03-15" None [ Sample.wien ]).
Proof.
  intros H. destruct (H eq_refl) as [ _ Hres ]. discriminate Hres.
Qed.

(** C6, amended.  After a search that fails, [error] holds the generic
    message, which is displayed, the loading flag is false, one request
    was issued, and the list of results is the one displayed before. *)
Theorem failed_search_shows_error (r : Response (list GeocodingResult)) (p : t) :
  failed r = true ->
  error (search r p).2 = Some whoopsies ∧
  banner (search r p).2 = Some whoopsies ∧
  isLoading (search r p).2 = false ∧
  searchResults (search r p).2 = searchResults p ∧
  trace (search r p).2 =
    trace p ++ [ Fetch (Search (trim (address (form p))));
                 SetError whoopsies; ConsoleLog; SetLoading false ].
Proof.
  intros Hf. unfold search.
  destruct r as [ | [ | ] body ]; [ | discriminate Hf | ];
    run_page; rewrite <- !app_assoc; repeat split; reflexivity.
Qed.

Lemma failed_search_shows_error_witness :
  let p := Sample.page "2022-01-01" "2024-03-15" None [ Sample.wien ] in
  let r := Reply false (Some []) in
  failed r = true ∧
  error (search r p).2 = Some whoopsies ∧
  banner (search r p).2 = Some whoopsies ∧
  isLoading (search r p).2 = false ∧
  searchResults (search r p).2 = [ Sample.wien ] ∧
  trace (search r p).2 =
    [ Fetch (Search "Wien"); SetError whoopsies; ConsoleLog; SetLoading false ].
Proof.
  intros p r. split; [ reflexivity | ].
  apply (failed_search_shows_error r p). reflexivity.
Defined.

End Search.

(** ** The default date range *)

Section DefaultDates.

(** Whatever the day, the start-date input is rendered as the second of
    January, two years back. *)
Lemma startDateValue_january_second (today : Date.t) :
  startDateValue today = Js.toString (Date.getFullYear today - 2) +:+ "-01-02".
Proof. reflexivity. Qed.

(** C8, at 15 March 2024.  [startDate] is 1 January 2022 and [endDate] is
    15 March 2024, yet the texts rendered into the two inputs denote
    2 January 2022 and 16 March 2024: [dateString] adds one to the day of
    the month.  On the last day of a month the end text denotes no date. *)
Theorem default_dates_rendered_one_day_late :
  let today := Date.mk 2024 2 15 in
  startDate today = Date.mk 2022 0 1 ∧
  endDate today = Date.mk 2024 2 15 ∧
  startDateValue today = "2022-01-02" ∧
  endDateValue today = "2024-03-16" ∧
  Moment.parse (startDateValue today) = Some (Moment.mk 2022 1 2) ∧
  Moment.parse (endDateValue today) = Some (Moment.mk 2024 3 16) ∧
  endDateValue (Date.mk 2024 0 31) = "2024-01-32" ∧
  Moment.parse (endDateValue (Date.mk 2024 0 31)) = None.
Proof. repeat split; reflexivity. Qed.

End DefaultDates.

(** ** The labels of the stacked view *)

Section Labels.

Lemma labels_length : length Stack.labels = 365.
Proof. reflexivity. Qed.

(** C7, on the code.  The 365 labels are the first 365 days of the year
    0000, which is a leap year: they contain 29 February and end on
    30 December, where the days 1 to 365 of a year that is not a leap year
    have no 29 February and end on 31 December. *)
Theorem stacked_labels_follow_a_leap_year :
  length Stack.labels = 365 ∧
  Moment.parse "0000-01-01" = Some (Moment.mk 0 1 1) ∧
  Moment.isLeapYear 0 = true ∧
  Stack.labels !! 0 = Some "Jan 1" ∧
  Stack.labels !! 58 = Some "Feb 28" ∧
  Stack.labels !! 59 = Some "Feb 29" ∧
  Stack.labels !! 60 = Some "Mar 1" ∧
  Stack.labels !! 364 = Some "Dec 30" ∧
  "Dec 31" ∉ Stack.labels.
Proof.
  repeat split; try (vm_compute; reflexivity).
  apply (bool_decide_eq_false_1 ("Dec 31" ∈ Stack.labels)).
  vm_compute. reflexivity.
Qed.

End Labels.

(** ** The chart projection *)

Section CreateChart.

Lemma chartsInv_blank : chartsInv blank.
Proof.
  split; [ constructor | ]. intros canvas. cbn. rewrite lookup_empty.
  split; [ intros H; by apply elem_of_nil in H | intros [ x H ]; discriminate H ].
Qed.

Lemma createChart_inv canvas labels datasets dateFormat (w : Canvases) :
  chartsInv w -> chartsInv (createChart canvas labels datasets dateFormat w).
Proof.
  intros [ Hnd Hb ]. unfold createChart.
  destruct (bound w !! canvas) as [ chart | ] eqn:E; split; cbn.
  - exact Hnd.
  - intros c. rewrite Hb. destruct (decide (canvas = c)) as [ <- | Hne ].
    + rewrite lookup_insert_eq, E. split; intros _; eauto.
    + by rewrite lookup_insert_ne.
  - apply NoDup_app. split; [ exact Hnd | ]. split; [ | apply NoDup_singleton ].
    intros c Hc Hc'. apply list_elem_of_singleton in Hc' as ->.
    apply Hb in Hc as [ x Hx ]. congruence.
  - intros c. rewrite elem_of_app, list_elem_of_singleton, Hb.
    destruct (decide (canvas = c)) as [ <- | Hne ].
    + rewrite lookup_insert_eq. split; intros _; eauto.
    + rewrite lookup_insert_ne by assumption. split; [ | by left ].
      intros [ H | H ]; [ exact H | congruence ].
Qed.

Lemma createCharts_inv (calls : list Call) (w : Canvases) :
  chartsInv w -> chartsInv (createCharts calls w).
Proof.
  unfold createCharts. revert w.
  induction calls as [ | [ [ [ canvas labels ] datasets ] dateFormat ] calls IH ];
    intros w Hw; cbn; [ exact Hw | ].
  apply IH. by apply createChart_inv.
Qed.

(** C9.  After any run of [createChart] calls on a document that started
    without charts, no canvas was handed to [new Chart] twice.  A further
    call on a canvas without a chart constructs one, records it in the
    canvas and displays the given labels, the normalised datasets and the
    date format; a further call on a canvas with a chart constructs
    nothing and leaves that same instance in the canvas, with its labels,
    datasets and date format replaced and one more [update()]. *)
Theorem createChart_one_instance_per_canvas
    (calls : list Call) canvas labels datasets dateFormat :
  let w := createCharts calls blank in
  let w' := createChart canvas labels datasets dateFormat w in
  NoDup (constructed w) ∧
  NoDup (constructed w') ∧
  match bound w !! canvas with
  | None =>
      constructed w' = constructed w ++ [ canvas ] ∧
      bound w' !! canvas =
        Some (Chart.mk (length (constructed w)) labels (normalize <$> datasets)
                dateFormat 0)
  | Some chart =>
      constructed w' = constructed w ∧
      bound w' !! canvas =
        Some (Chart.mk (Chart.id chart) labels (normalize <$> datasets)
                dateFormat (S (Chart.updates chart)))
  end.
Proof.
  intros w w'.
  assert (Hw : chartsInv w) by apply createCharts_inv, chartsInv_blank.
  assert (Hw' : chartsInv w') by by apply createChart_inv.
  split; [ apply Hw | ]. split; [ apply Hw' | ].
  subst w'. unfold createChart.
  destruct (bound w !! canvas) as [ chart | ]; cbn;
    rewrite lookup_insert_eq; split; reflexivity.
Qed.

End CreateChart.

(** ** The year-stacking transform *)

Section Stacking.

Import Stack.

(** *** The keys of [yearlyData] *)

Lemma initYear_dom {R : Reading} (dates : list string) (yd : gmap string YearData) (i : nat) :
  dom (Js.forEachFrom initYear yd dates i) =
  dom yd ∪ list_to_set (yearOf <$> dates).
Proof.
  revert yd i. induction dates as [ | date dates IH ]; intros yd i; cbn.
  - set_solver.
  - rewrite IH. unfold initYear.
    destruct (yd !! yearOf date) as [ y | ] eqn:E.
    + apply (elem_of_dom_2 yd) in E. set_solver.
    + rewrite dom_insert_L. set_solver.
Qed.

Lemma fillDay_dom {R : Reading} (minTemp maxTemp : list temp) (dates : list string)
    (yd : gmap string YearData) (i : nat) :
  dom (Js.forEachFrom (fillDay minTemp maxTemp) yd dates i) = dom yd.
Proof.
  revert yd i. induction dates as [ | date dates IH ]; intros yd i; cbn.
  - reflexivity.
  - rewrite IH. unfold fillDay.
    destruct (moment date); [ apply dom_alter_L | reflexivity ].
Qed.

Lemma yearlyData_dom {R : Reading} (d : SpartacusResult) :
  dom (yearlyData d) = list_to_set (yearOf <$> timestamps d).
Proof.
  unfold yearlyData, Js.forEach. rewrite fillDay_dom, initYear_dom.
  set_solver.
Qed.



(** *** The buckets *)

Lemma array_set_length {A} (hole : A) (a : list A) (i : nat) (v : A) :
  length (Js.array_set hole a i v) = length a `max` S i.
Proof.
  unfold Js.array_set. destruct (decide (i < length a)).
  - rewrite length_insert. lia.
  - rewrite !length_app, length_replicate. cbn. lia.
Qed.

(** A property of the loop state that every round keeps holds at the end. *)
Lemma forEachFrom_invariant {A St} (P : St -> Prop) (f : St -> A -> nat -> St)
    (l : list A) :
  (∀ s x i, x ∈ l -> P s -> P (f s x i)) ->
  ∀ s i, P s -> P (Js.forEachFrom f s l i).
Proof.
  induction l as [ | x l IH ]; intros Hf s i Hs; cbn; [ exact Hs | ].
  apply IH.
  - intros s' y j Hy. apply Hf. by apply list_elem_of_further.
  - apply Hf; [ apply list_elem_of_here | exact Hs ].
Qed.

Lemma initYears_within {R : Reading} (dates : list string) :
  bucketsWithin 365 365 (Js.forEach initYear ∅ dates).
Proof.
  unfold Js.forEach. apply (forEachFrom_invariant (bucketsWithin 365 365)).
  - intros yd date i _ Hyd. unfold initYear.
    destruct (yd !! yearOf date) eqn:E; [ exact Hyd | ].
    intros year y. rewrite lookup_insert. case_decide.
    + intros Hy. apply (inj Some) in Hy. subst y.
      cbn [minTemps maxTemps]. rewrite !length_replicate. lia.
    + apply Hyd.
  - intros year y H. by rewrite lookup_empty in H.
Qed.

(** When every day of the year the timestamps denote is at most [last],
    with [last] at least 365, the buckets end up with 365 to [last]
    elements. *)
Lemma yearlyData_within {R : Reading} (d : SpartacusResult) (last : nat) :
  365 <= last ->
  (∀ date m, date ∈ timestamps d -> moment date = Some m ->
             Moment.dayOfYear m <= last) ->
  bucketsWithin 365 last (yearlyData d).
Proof.
  intros Hlast Hdays. unfold yearlyData.
  unfold Js.forEach at 1. apply (forEachFrom_invariant (bucketsWithin 365 last)).
  - intros yd date i Hdate Hyd. unfold fillDay.
    destruct (moment date) as [ m | ] eqn:E; [ | exact Hyd ].
    specialize (Hdays date m Hdate E).
    intros year y. rewrite lookup_alter. case_decide; [ | apply Hyd ].
    destruct (yd !! yearOf date) as [ y0 | ] eqn:E0; [ | discriminate ].
    intros Hy. apply (inj Some) in Hy. subst y.
    cbn [minTemps maxTemps]. rewrite !array_set_length.
    destruct (Hyd _ _ E0). lia.
  - intros year y H. destruct (initYears_within (timestamps d) year y H). lia.
Qed.

(** The same, for a property that depends on the index of the round. *)
Lemma forEachFrom_invariant_at {A St} (P : St -> Prop)
    (f : St -> A -> nat -> St) (l : list A) :
  ∀ i0, (∀ s x k, l !! k = Some x -> P s -> P (f s x (i0 + k))) ->
  ∀ s, P s -> P (Js.forEachFrom f s l i0).
Proof.
  induction l as [ | x l IH ]; intros i0 Hf s Hs; cbn; [ exact Hs | ].
  apply IH.
  - intros s' y k Hk. replace (S i0 + k) with (i0 + S k) by lia. by apply Hf.
  - specialize (Hf s x 0 eq_refl Hs). by rewrite Nat.add_0_r in Hf.
Qed.

Lemma array_set_filled (a : list cell) (i : nat) (v : cell) :
  filled a -> i <= length a -> is_Some v -> filled (Js.array_set None a i v).
Proof.
  unfold filled, Js.array_set, cell in *. intros Ha Hi Hv.
  case_decide.
  - by apply Forall_insert.
  - replace (i - length a) with 0 by lia.
    apply Forall_app. split; [ exact Ha | by apply Forall_singleton ].
Qed.

(** The calendar: a valid date is one of the 365 or 366 days of its year. *)
Lemma dayOfYear_range (m : Moment.t) :
  Moment.valid m = true ->
  1 <= Moment.dayOfYear m <= Moment.daysInYear (Moment.year m).
Proof.
  destruct m as [ y mo da ]. unfold Moment.valid, Moment.dayOfYear, Moment.daysInYear.
  cbn [Moment.year Moment.month Moment.date]. rewrite !andb_true_iff.
  rewrite !Nat.leb_le. intros [ [ [ H1 H12 ] Hd1 ] Hd ].
  assert (Hmo : mo = 1 ∨ mo = 2 ∨ mo = 3 ∨ mo = 4 ∨ mo = 5 ∨ mo = 6 ∨
                mo = 7 ∨ mo = 8 ∨ mo = 9 ∨ mo = 10 ∨ mo = 11 ∨ mo = 12) by lia.
  repeat (destruct Hmo as [ -> | Hmo ]); subst;
    cbn in *; destruct (Moment.isLeapYear y); lia.
Qed.

Lemma parse_valid (date : string) (m : Moment.t) :
  Moment.parse date = Some m -> Moment.valid m = true.
Proof.
  unfold Moment.parse. intros H.
  repeat match type of H with
         | (if Moment.valid ?r && _ then _ else _) = _ =>
             destruct (Moment.valid r) eqn:E; [ | discriminate H ];
             destruct (Moment.timeSuffix _); [ | discriminate H ];
             cbn [andb] in H
         | match ?x with _ => _ end = _ => destruct x; try discriminate H
         | (_ ≫= _) = _ => apply bind_Some in H as (? & _ & H); cbv zeta in H
         end.
  by injection H as <-.
Qed.

(** Whatever the series, every bucket has 365 or 366 elements. *)
Lemma yearlyData_365_or_366 (d : SpartacusResult) :
  bucketsWithin 365 366 (yearlyData d).
Proof.
  apply yearlyData_within; [ lia | ].
  intros date m _ Hm. apply parse_valid in Hm.
  pose proof (dayOfYear_range m Hm) as H. unfold Moment.daysInYear in H.
  destruct (Moment.isLeapYear (Moment.year m)); lia.
Qed.

(** When the two temperature arrays are as long as the timestamps, no
    element of a bucket is [undefined]: each is a number or [null]. *)
Lemma yearlyData_filled (d : SpartacusResult) :
  length (timestamps d) <= length (TN d) ->
  length (timestamps d) <= length (TX d) ->
  ∀ year y, yearlyData d !! year = Some y ->
    filled (minTemps y) ∧ filled (maxTemps y).
Proof.
  intros Hn Hx.
  set (P := fun yd : gmap string YearData =>
              bucketsWithin 365 366 yd ∧
              ∀ year y, yd !! year = Some y ->
                filled (minTemps y) ∧ filled (maxTemps y)).
  assert (Hinit : P (Js.forEach initYear ∅ (timestamps d))).
  { split.
    - intros year y H. destruct (initYears_within _ year y H). lia.
    - unfold Js.forEach. apply forEachFrom_invariant.
      + intros yd date i _ Hyd. unfold initYear.
        destruct (yd !! yearOf date) eqn:E; [ exact Hyd | ].
        intros year y. rewrite lookup_insert. case_decide; [ | apply Hyd ].
        intros Hy. apply (inj Some) in Hy. subst y.
        cbn [minTemps maxTemps]. unfold filled.
        split; apply Forall_replicate; eauto.
      + intros year y H. by rewrite lookup_empty in H. }
  enough (HP : P (yearlyData d)) by apply HP.
  unfold yearlyData. unfold Js.forEach at 1.
  apply (forEachFrom_invariant_at P); [ | exact Hinit ].
  intros yd date k Hk [ Hlen Hfill ]. cbn [Nat.add].
  assert (Hk' : k < length (timestamps d)) by by eapply lookup_lt_Some.
  unfold fillDay. destruct (moment date) as [ m | ] eqn:E; [ | by split ].
  pose proof (dayOfYear_range m (parse_valid _ _ E)) as Hday.
  unfold Moment.daysInYear in Hday.
  assert (Hday' : Moment.dayOfYear m - 1 <= 365)
    by (destruct (Moment.isLeapYear (Moment.year m)); lia).
  split; intros year y; rewrite lookup_alter;
    (case_decide; [ | by (apply Hlen || apply Hfill) ]);
    destruct (yd !! yearOf date) as [ y0 | ] eqn:E0; try discriminate;
    intros Hy; apply (inj Some) in Hy; subst y; cbn [minTemps maxTemps];
    destruct (Hlen _ _ E0) as [ Hl1 Hl2 ]; destruct (Hfill _ _ E0) as [ Hf1 Hf2 ].
  - rewrite !array_set_length. lia.
  - split; apply array_set_filled; try assumption; try lia;
      apply lookup_lt_is_Some_2; lia.
Qed.

(** A series without a 366th day of a year fills buckets of exactly 365
    elements. *)
Lemma yearlyData_365 {R : Reading} (d : SpartacusResult) :
  (∀ date m, date ∈ timestamps d -> moment date = Some m ->
             Moment.dayOfYear m <= 365) ->
  bucketsWithin 365 365 (yearlyData d).
Proof. apply yearlyData_within. lia. Qed.

(** C1, on the code, for the last two days of the leap year 2020 and the
    first of 2021.  31 December 2020 is day 366; its sample is stored at
    index 365, so both arrays of the bucket of 2020 have 366 elements and
    the sample is the last of them, while the bucket of 2021 has 365. *)
Theorem leap_year_bucket_has_366_elements :
  let d := Sample.turnOfYear in
  let yd := yearlyData d in
  (Moment.dayOfYear <$> Moment.parse "2020-12-31T00:00+00:00") = Some 366 ∧
  length (minTempsOf yd "2020") = 366 ∧
  length (maxTempsOf yd "2020") = 366 ∧
  minTempsOf yd "2020" !! 365 = Some (Some (Num (-2))) ∧
  maxTempsOf yd "2020" !! 365 = Some (Some (Num 4)) ∧
  minTempsOf yd "2020" !! 364 = Some (Some (Num (-3))) ∧
  length (minTempsOf yd "2021") = 365 ∧
  length <$> (data <$> datasets true true true d) = [ 366; 365; 366; 365 ] ∧
  ¬ bucketsWithin 365 365 yd.
Proof.
  repeat split; try (vm_compute; reflexivity).
  intros H.
  assert (E : is_Some (yearlyData Sample.turnOfYear !! "2020"))
    by (vm_compute; eauto).
  destruct E as [ y E ]. destruct (H "2020" y E) as [ [ _ Hmin ] _ ].
  assert (E' : length (minTempsOf (yearlyData Sample.turnOfYear) "2020") = 366)
    by (vm_compute; reflexivity).
  unfold minTempsOf in E'. rewrite E in E'. cbn in E'. lia.
Qed.

(** *** Emission order *)







(** West of Greenwich the three midnights of [turnOfYear] fall in 2020:
    the series covers one year there, and two where the dates are read as
    written. *)
Lemma turnOfYear_western :
  @years (@yearlyData western Sample.turnOfYear) = [ "2020" ] ∧
  label <$> @datasets western true true true Sample.turnOfYear =
    [ "Min Temp 2020"; "Max Temp 2020" ] ∧
  ¬ @covers western Sample.turnOfYear [ "2020"; "2021" ].
Proof.
  split; [ vm_compute; reflexivity | ].
  split; [ vm_compute; reflexivity | ].
  intros H. specialize (H "2021").
  change (@yearOf western <$> timestamps Sample.turnOfYear)
    with [ "2020"; "2020"; "2020" ] in H.
  assert (Hin : "2021" ∈ [ "2020"; "2021" ]) by (rewrite !elem_of_cons; tauto).
  apply H in Hin. rewrite !elem_of_cons, elem_of_nil in Hin.
  destruct Hin as [ Hin | [ Hin | [ Hin | [] ] ] ]; discriminate Hin.
Qed.


End Stacking.

(** * Further properties of the code *)

(** ** The years of the stacked view *)

Section Years.

Import Stack.

(** X1.  However the browser reads the timestamps, the years of the
    stacked view are the year texts it reads off them, each once, in
    ascending order. *)
Theorem years_sorted_distinct_complete (R : Reading) (d : SpartacusResult) :
  Sorted String.le (years (yearlyData d)) ∧
  NoDup (years (yearlyData d)) ∧
  ∀ y, y ∈ years (yearlyData d) ↔ y ∈ yearOf <$> timestamps d.
Proof.
  unfold years, Js.sort.
  split; [ apply Sorted_merge_sort; apply _ | ].
  split.
  - rewrite merge_sort_Permutation. apply NoDup_elements.
  - intros y. rewrite merge_sort_Permutation, elem_of_elements, yearlyData_dom.
    apply elem_of_list_to_set.
Qed.

End Years.

(** ** What the stacked view emits *)

Section Emission.

Import Stack.

Lemma forEachFrom_app {A St} (f : St -> A -> nat -> St) (l1 l2 : list A)
    (s : St) (i0 : nat) :
  Js.forEachFrom f s (l1 ++ l2) i0 =
  Js.forEachFrom f (Js.forEachFrom f s l1 i0) l2 (i0 + length l1).
Proof.
  revert s i0. induction l1 as [ | x l1 IH ]; intros s i0; cbn.
  - by rewrite Nat.add_0_r.
  - rewrite IH. f_equal. lia.
Qed.

(** A loop whose callback pushes at every round. *)
Lemma forEachFrom_push_all {A B} (f : list B -> A -> nat -> list B)
    (g : A -> nat -> B) (l : list A) :
  (∀ acc x i, f acc x i = acc ++ [ g x i ]) ->
  ∀ acc i0, Js.forEachFrom f acc l i0 = acc ++ imap (fun k x => g x (i0 + k)) l.
Proof.
  intros Hf. induction l as [ | x l IH ]; intros acc i0; cbn.
  - by rewrite app_nil_r.
  - rewrite IH, Hf, <- app_assoc. cbn. rewrite Nat.add_0_r. do 2 f_equal.
    apply imap_ext. intros k y _. cbn. f_equal. lia.
Qed.

(** A loop whose callback pushes at none of its rounds. *)
Lemma forEachFrom_push_none {A B} (f : list B -> A -> nat -> list B)
    (l : list A) :
  ∀ acc i0,
    (∀ acc' x i, i0 <= i < i0 + length l -> f acc' x i = acc') ->
    Js.forEachFrom f acc l i0 = acc.
Proof.
  induction l as [ | x l IH ]; intros acc i0 Hf; cbn; [ reflexivity | ].
  rewrite Hf by (cbn; lia). apply IH.
  intros acc' y i Hi. apply Hf. cbn. lia.
Qed.

(** X3.  With both show-minimum and show-maximum off, neither view has a
    dataset. *)
Theorem no_series_no_datasets (firstLast : bool) (d : SpartacusResult) :
  datasets firstLast false false d = [] ∧ plainDatasets false false d = [].
Proof.
  split; [ | reflexivity ].
  unfold datasets, Js.forEach. cbv zeta.
  rewrite !forEachFrom_push_none; [ reflexivity | | ];
    intros acc y i _; [ unfold pushMin | unfold pushMax ];
    by destruct (firstLast && negb (isFirstOrLast _ i)).
Qed.

(** X4.  With first/last-year off, every year contributes: the stacked view
    emits the minimum dataset of every year in ascending order when
    show-minimum is on, followed by the maximum dataset of every year in
    ascending order when show-maximum is on. *)
Theorem all_years_emit_min_then_max (minT maxT : bool) (d : SpartacusResult) :
  let yd := yearlyData d in
  let N := length (years yd) in
  datasets false minT maxT d =
    (if minT then imap (fun i y => minDataset yd N y i) (years yd) else []) ++
    (if maxT then imap (fun i y => maxDataset yd N y i) (years yd) else []).
Proof.
  intros yd N. unfold datasets, Js.forEach. cbv zeta. fold yd. fold N.
  assert (Hmin : Js.forEachFrom (pushMin false minT yd N) [] (years yd) 0 =
                 if minT then imap (fun i y => minDataset yd N y i) (years yd)
                 else []).
  { destruct minT.
    - by rewrite (forEachFrom_push_all _ (minDataset yd N)).
    - by apply forEachFrom_push_none. }
  rewrite Hmin. destruct maxT.
  - by rewrite (forEachFrom_push_all _ (maxDataset yd N)).
  - rewrite app_nil_r. by apply forEachFrom_push_none.
Qed.

(** With first/last-year on, the rounds strictly between the first and the
    last push nothing. *)
Lemma pushMin_middle minT yd len (l : list string) acc i0 :
  0 < i0 -> i0 + length l <= len - 1 ->
  Js.forEachFrom (pushMin true minT yd len) acc l i0 = acc.
Proof.
  intros H0 Hl. apply forEachFrom_push_none. intros acc' y i Hi.
  unfold pushMin, isFirstOrLast.
  rewrite (proj2 (Nat.eqb_neq i 0)), (proj2 (Nat.eqb_neq i (len - 1))) by lia.
  reflexivity.
Qed.

Lemma pushMax_middle maxT yd len (l : list string) acc i0 :
  0 < i0 -> i0 + length l <= len - 1 ->
  Js.forEachFrom (pushMax true maxT yd len) acc l i0 = acc.
Proof.
  intros H0 Hl. apply forEachFrom_push_none. intros acc' y i Hi.
  unfold pushMax, isFirstOrLast.
  rewrite (proj2 (Nat.eqb_neq i 0)), (proj2 (Nat.eqb_neq i (len - 1))) by lia.
  reflexivity.
Qed.

(** X5.  With first/last-year on and two or more years, only the oldest and
    the most recent year are drawn, whatever lies between them: their two
    minimum datasets when show-minimum is on, then their two maximum
    datasets when show-maximum is on. *)
Theorem first_and_last_year_only (minT maxT : bool) (d : SpartacusResult)
    (first last : string) (between : list string) :
  years (yearlyData d) = first :: between ++ [ last ] ->
  let yd := yearlyData d in
  let N := length (years yd) in
  datasets true minT maxT d =
    (if minT then [ minDataset yd N first 0; minDataset yd N last (N - 1) ]
     else []) ++
    (if maxT then [ maxDataset yd N first 0; maxDataset yd N last (N - 1) ]
     else []).
Proof.
  intros Hy yd N. unfold datasets, Js.forEach. cbv zeta. fold yd. fold N.
  assert (HN : N = S (S (length between))).
  { unfold N, yd. rewrite Hy. cbn. rewrite length_app. cbn. lia. }
  fold yd in Hy. rewrite Hy.
  assert (Hlast : 1 + length between = N - 1) by lia.
  cbn [Js.forEachFrom]. rewrite !forEachFrom_app. cbn [Js.forEachFrom].
  rewrite pushMin_middle by lia.
  rewrite pushMax_middle by lia.
  rewrite Hlast.
  unfold pushMin, pushMax, isFirstOrLast.
  rewrite Nat.eqb_refl, orb_true_r. cbn [Nat.eqb orb negb andb].
  destruct minT, maxT; reflexivity.
Qed.

(** X6.  With first/last-year on and a single year, that year is drawn
    once, as the most recent one: one minimum and one maximum dataset at
    most. *)
Theorem single_year_not_duplicated (minT maxT : bool) (d : SpartacusResult)
    (year : string) :
  years (yearlyData d) = [ year ] ->
  datasets true minT maxT d =
    (if minT then [ minDataset (yearlyData d) 1 year 0 ] else []) ++
    (if maxT then [ maxDataset (yearlyData d) 1 year 0 ] else []).
Proof.
  intros Hy. unfold datasets, Js.forEach. cbv zeta. rewrite Hy.
  destruct minT, maxT; reflexivity.
Qed.

Lemma threeYears_years :
  years (yearlyData Example.threeYears) = "2020" :: [ "2021" ] ++ [ "2022" ].
Proof. vm_compute. reflexivity. Qed.

Lemma oneYear_years : years (yearlyData Example.oneYear) = [ "2021" ].
Proof. vm_compute. reflexivity. Qed.

Lemma first_and_last_year_only_witness :
  let d := Example.threeYears in
  years (yearlyData d) = "2020" :: [ "2021" ] ++ [ "2022" ] ∧
  label <$> datasets true true true d =
    [ "Min Temp 2020"; "Min Temp 2022"; "Max Temp 2020"; "Max Temp 2022" ].
Proof.
  intros d. split; [ exact threeYears_years | ].
  rewrite (first_and_last_year_only true true d "2020" "2022" [ "2021" ]
             threeYears_years).
  reflexivity.
Defined.

Lemma single_year_not_duplicated_witness :
  let d := Example.oneYear in
  years (yearlyData d) = [ "2021" ] ∧
  label <$> datasets true true true d = [ "Min Temp 2021"; "Max Temp 2021" ].
Proof.
  intros d. split; [ exact oneYear_years | ].
  rewrite (single_year_not_duplicated true true d "2021" oneYear_years).
  reflexivity.
Defined.

End Emission.

(** ** The opacities of the stacked view *)

Section Opacity.

Import Stack Fading.

(** What the stacked view emits, for any reading of the timestamps. *)
Lemma datasets_unfiltered {R : Reading} (minT maxT : bool) (d : SpartacusResult) :
  datasets false minT maxT d =
    (if minT
     then imap (fun i y => minDataset (yearlyData d) (length (years (yearlyData d))) y i)
               (years (yearlyData d))
     else []) ++
    (if maxT
     then imap (fun i y => maxDataset (yearlyData d) (length (years (yearlyData d))) y i)
               (years (yearlyData d))
     else []).
Proof.
  unfold datasets, Js.forEach. cbv zeta.
  set (yd := yearlyData d). set (N := length (years yd)).
  assert (Hmin : Js.forEachFrom (pushMin false minT yd N) [] (years yd) 0 =
                 if minT then imap (fun i y => minDataset yd N y i) (years yd)
                 else []).
  { destruct minT.
    - by rewrite (forEachFrom_push_all _ (minDataset yd N)).
    - by apply forEachFrom_push_none. }
  rewrite Hmin. destruct maxT.
  - by rewrite (forEachFrom_push_all _ (maxDataset yd N)).
  - rewrite app_nil_r. by apply forEachFrom_push_none.
Qed.

Lemma datasets_first_last {R : Reading} (minT maxT : bool) (d : SpartacusResult)
    (first last : string) (between : list string) :
  years (yearlyData d) = first :: between ++ [ last ] ->
  datasets true minT maxT d =
    (if minT
     then [ minDataset (yearlyData d) (length (years (yearlyData d))) first 0;
            minDataset (yearlyData d) (length (years (yearlyData d))) last
              (length (years (yearlyData d)) - 1) ]
     else []) ++
    (if maxT
     then [ maxDataset (yearlyData d) (length (years (yearlyData d))) first 0;
            maxDataset (yearlyData d) (length (years (yearlyData d))) last
              (length (years (yearlyData d)) - 1) ]
     else []).
Proof.
  intros Hy. unfold datasets, Js.forEach. cbv zeta.
  set (yd := yearlyData d) in *. set (N := length (years yd)).
  assert (HN : N = S (S (length between))).
  { unfold N. rewrite Hy. cbn. rewrite length_app. cbn. lia. }
  rewrite Hy.
  assert (Hlast : 1 + length between = N - 1) by lia.
  cbn [Js.forEachFrom]. rewrite !forEachFrom_app. cbn [Js.forEachFrom].
  rewrite pushMin_middle by lia.
  rewrite pushMax_middle by lia.
  rewrite Hlast.
  unfold pushMin, pushMax, isFirstOrLast.
  rewrite Nat.eqb_refl, orb_true_r. cbn [Nat.eqb orb negb andb].
  destruct minT, maxT; reflexivity.
Qed.

Lemma datasets_single {R : Reading} (minT maxT : bool) (d : SpartacusResult)
    (year : string) :
  years (yearlyData d) = [ year ] ->
  datasets true minT maxT d =
    (if minT then [ minDataset (yearlyData d) 1 year 0 ] else []) ++
    (if maxT then [ maxDataset (yearlyData d) 1 year 0 ] else []).
Proof.
  intros Hy. unfold datasets, Js.forEach. cbv zeta. rewrite Hy.
  destruct minT, maxT; reflexivity.
Qed.

(** The label and the opacity of a dataset the loops build. *)
Lemma minDataset_labelled yd (len : nat) (year : string) (index : nat) :
  (label (minDataset yd len year index),
   alpha (borderColor (minDataset yd len year index))) =
  ("Min Temp " +:+ year, opacity len index).
Proof.
  unfold minDataset, opacity. cbn. by destruct (index =? len - 1).
Qed.

Lemma maxDataset_labelled yd (len : nat) (year : string) (index : nat) :
  (label (maxDataset yd len year index),
   alpha (borderColor (maxDataset yd len year index))) =
  ("Max Temp " +:+ year, opacity len index).
Proof.
  unfold maxDataset, opacity. cbn. by destruct (index =? len - 1).
Qed.

(** The floor, index by index and length by length. *)
Lemma of_Z_succ (z : Z) :
  Uint63.of_Z (z + 1) = Uint63.add (Uint63.of_Z z) 1.
Proof.
  apply Uint63.to_Z_inj. rewrite Uint63.add_spec, !Uint63.of_Z_spec.
  change (Uint63.to_Z 1) with 1%Z. by rewrite Z.add_mod_idemp_l.
Qed.

Lemma flooredFrom_spec (k : nat) (len index j : Z) :
  flooredFrom k (Uint63.of_Z len) (Uint63.of_Z index) = true ->
  (index <= j < index + Z.of_nat k)%Z ->
  PrimFloat.leb floor (fade len j) = true.
Proof.
  revert index. induction k as [ | k IH ]; intros index H Hj; [ lia | ].
  cbn [flooredFrom] in H. apply andb_true_iff in H as [ H0 H1 ].
  destruct (decide (j = index)) as [ -> | Hne ]; [ exact H0 | ].
  rewrite <- of_Z_succ in H1.
  apply (IH (index + 1)%Z); [ exact H1 | lia ].
Qed.

Lemma flooredLengths_spec (k n m : nat) :
  flooredLengths k n (Uint63.of_Z (Z.of_nat n)) = true ->
  n <= m < n + k ->
  flooredFrom m (Uint63.of_Z (Z.of_nat m)) 0 = true.
Proof.
  revert n. induction k as [ | k IH ]; intros n H Hm; [ lia | ].
  cbn [flooredLengths] in H. apply andb_true_iff in H as [ H0 H1 ].
  destruct (decide (m = n)) as [ -> | Hne ]; [ exact H0 | ].
  rewrite <- of_Z_succ in H1.
  replace (Z.of_nat n + 1)%Z with (Z.of_nat (S n)) in H1 by lia.
  apply (IH (S n)); [ exact H1 | lia ].
Qed.

(** For up to ten thousand years the fading is at least [0.4], as the
    browser computes it. *)
Lemma fade_floor (len index : nat) :
  0 < len <= 10 * 1000 -> index < len ->
  PrimFloat.leb floor (fade (Z.of_nat len) (Z.of_nat index)) = true.
Proof.
  intros Hlen Hidx.
  assert (H : flooredLengths (10 * 1000) 1 (Uint63.of_Z (Z.of_nat 1)) = true)
    by (vm_compute; reflexivity).
  apply (flooredFrom_spec len _ 0);
    [ apply (flooredLengths_spec _ 1 _ H); lia | lia ].
Qed.

(** C3, as stated, fails.  Of 49 years with first/last-year on, two are
    retained.  The specification gives the older one the opacity of the
    formula at N = 2 and i = 0, which is 0.4; the code computes the formula
    at the 49 years present, and in binary64 (1/49) * 49 is below 1: the
    opacity is 0.4000000000000001. *)
Lemma retained_years_opacity_counterexample :
  ¬ byRetainedYears true Example.fortyNineYears.
Proof.
  unfold byRetainedYears. cbv zeta. intros H.
  apply (f_equal (fun l => match l with
                           | x :: _ => PrimFloat.eqb x floor
                           | [] => true
                           end)) in H.
  vm_compute in H. discriminate H.
Qed.

(** C3, amended.  With N the number of years present, counted before the
    first/last-year filter, and i the ascending index of a year among them:
    without the filter the stacked view draws every year, the minima then
    the maxima, each with the opacity the loops compute at N and i; with
    the filter and two or more years it draws the oldest year with the
    opacity of the formula at N and 0 and the most recent with opacity 1;
    with the filter and one year it draws that year with opacity 1.  The
    opacity at N and i is exactly 1 for the most recent year, i = N - 1,
    and the binary64 value of (1 - (1/N) * (N - i)) * 0.6 + 0.4 for an
    older one; for N up to 10000 it is at least 0.4. *)
Theorem stacked_opacity_by_years_present (R : Reading) (minT maxT : bool)
    (d : SpartacusResult) :
  let ys := years (yearlyData d) in
  let N := length ys in
  labelled (datasets false minT maxT d) =
    (if minT then imap (fun i y => ("Min Temp " +:+ y, opacity N i)) ys else []) ++
    (if maxT then imap (fun i y => ("Max Temp " +:+ y, opacity N i)) ys else []) ∧
  (∀ first last between, ys = first :: between ++ [ last ] ->
     labelled (datasets true minT maxT d) =
       (if minT then [ ("Min Temp " +:+ first, fade (Z.of_nat N) 0);
                       ("Min Temp " +:+ last, 1%float) ] else []) ++
       (if maxT then [ ("Max Temp " +:+ first, fade (Z.of_nat N) 0);
                       ("Max Temp " +:+ last, 1%float) ] else [])) ∧
  (∀ year, ys = [ year ] ->
     labelled (datasets true minT maxT d) =
       (if minT then [ ("Min Temp " +:+ year, 1%float) ] else []) ++
       (if maxT then [ ("Max Temp " +:+ year, 1%float) ] else [])) ∧
  (∀ i, i < N ->
     (i = N - 1 -> opacity N i = 1%float) ∧
     (i ≠ N - 1 -> opacity N i = fade (Z.of_nat N) (Z.of_nat i)) ∧
     (N <= 10 * 1000 -> PrimFloat.leb floor (opacity N i) = true)).
Proof.
  intros ys N. subst ys N.
  set (yd := yearlyData d). set (N := length (years yd)).
  split; [ | split; [ | split ] ].
  - rewrite datasets_unfiltered. fold yd. fold N. unfold labelled.
    rewrite fmap_app. f_equal.
    + destruct minT; [ | reflexivity ]. rewrite fmap_imap.
      apply imap_ext. intros i y _. apply minDataset_labelled.
    + destruct maxT; [ | reflexivity ]. rewrite fmap_imap.
      apply imap_ext. intros i y _. apply maxDataset_labelled.
  - intros first last between Hy.
    rewrite (datasets_first_last minT maxT d first last between Hy).
    fold yd. fold N.
    assert (HN : N = S (S (length between))).
    { unfold N. rewrite Hy. cbn. rewrite length_app. cbn. lia. }
    unfold labelled. rewrite fmap_app.
    assert (E0 : opacity N 0 = fade (Z.of_nat N) 0).
    { unfold opacity. rewrite HN. reflexivity. }
    assert (E1 : opacity N (N - 1) = 1%float).
    { unfold opacity. by rewrite Nat.eqb_refl. }
    destruct minT, maxT; cbn [fmap list_fmap app];
      rewrite ?minDataset_labelled, ?maxDataset_labelled, ?E0, ?E1;
      reflexivity.
  - intros year Hy. rewrite (datasets_single minT maxT d year Hy).
    unfold labelled. destruct minT, maxT; reflexivity.
  - intros i Hi. unfold opacity. split; [ | split ].
    + intros ->. by rewrite Nat.eqb_refl.
    + intros Hne. by rewrite (proj2 (Nat.eqb_neq _ _) Hne).
    + intros HN. destruct (i =? N - 1); [ reflexivity | ].
      apply fade_floor; lia.
Qed.

Lemma turnOfYear_years :
  years (yearlyData Sample.turnOfYear) = "2020" :: [] ++ [ "2021" ].
Proof. vm_compute. reflexivity. Qed.

Lemma stacked_opacity_by_years_present_witness :
  years (yearlyData Sample.turnOfYear) = "2020" :: [] ++ [ "2021" ] ∧
  labelled (datasets true true true Sample.turnOfYear) =
    [ ("Min Temp 2020", fade 2 0); ("Min Temp 2021", 1%float);
      ("Max Temp 2020", fade 2 0); ("Max Temp 2021", 1%float) ] ∧
  PrimFloat.leb floor (opacity 2 0) = true.
Proof.
  destruct (stacked_opacity_by_years_present written true true Sample.turnOfYear)
    as (_ & Hfl & _ & Hop).
  split; [ exact turnOfYear_years | ]. split.
  - exact (Hfl "2020" "2021" [] turnOfYear_years).
  - rewrite turnOfYear_years in Hop.
    destruct (Hop 0) as (_ & _ & Hfloor); [ cbn; lia | ].
    apply Hfloor. cbn. lia.
Defined.

End Opacity.

(** ** Where the samples land *)

Section Slots.

Import Stack Bucket.

Lemma array_set_lookup_eq {A} (hole : A) (a : list A) (i : nat) (v : A) :
  Js.array_set hole a i v !! i = Some v.
Proof.
  unfold Js.array_set. case_decide.
  - by apply list_lookup_insert_eq.
  - rewrite lookup_app_r by lia. rewrite lookup_app_r by (rewrite length_replicate; lia).
    rewrite length_replicate. by replace (i - length a - (i - length a)) with 0 by lia.
Qed.

Lemma array_set_lookup_ne {A} (hole : A) (a : list A) (i j : nat) (v : A) :
  j ≠ i -> j < length a -> Js.array_set hole a i v !! j = a !! j.
Proof.
  intros Hne Hj. unfold Js.array_set. case_decide.
  - by apply list_lookup_insert_ne.
  - by apply lookup_app_l.
Qed.

(** One round of the second loop, seen from the slot it writes. *)
Lemma fillDay_own_slot {R : Reading} (tn tx : list temp) (yd : gmap string YearData)
    (date : string) (i : nat) (slot : string * nat) :
  slotOf date = Some slot -> is_Some (yd !! slot.1) ->
  minAt (fillDay tn tx yd date i) slot = Some (tn !! i) ∧
  maxAt (fillDay tn tx yd date i) slot = Some (tx !! i).
Proof.
  unfold slotOf, fillDay, minAt, maxAt, minTempsOf, maxTempsOf.
  destruct (moment date) as [ m | ]; [ | discriminate ].
  cbn. intros [= <-] [ y Hy ]. cbn [fst snd] in *.
  rewrite lookup_alter_eq, Hy. cbn. by rewrite !array_set_lookup_eq.
Qed.

(** One round of the second loop, seen from a slot it does not write:
    what the slot holds stays. *)
Lemma fillDay_other_slot {R : Reading} (tn tx : list temp) (yd : gmap string YearData)
    (date : string) (i : nat) (slot : string * nat) :
  slotOf date ≠ Some slot ->
  is_Some (minAt yd slot) -> is_Some (maxAt yd slot) ->
  minAt (fillDay tn tx yd date i) slot = minAt yd slot ∧
  maxAt (fillDay tn tx yd date i) slot = maxAt yd slot.
Proof.
  unfold slotOf, fillDay, minAt, maxAt, minTempsOf, maxTempsOf.
  destruct slot as [ year k ]. cbn [fst snd].
  destruct (moment date) as [ m | ]; [ | by split ].
  cbn. intros Hne Hmin Hmax.
  destruct (decide (yearOf date = year)) as [ <- | Hy ].
  - rewrite lookup_alter_eq.
    destruct (yd !! yearOf date) as [ y | ]; [ | by split ].
    cbn in *. apply lookup_lt_is_Some in Hmin, Hmax.
    assert (k ≠ Moment.dayOfYear m - 1) by congruence.
    by rewrite !array_set_lookup_ne.
  - by rewrite lookup_alter_ne.
Qed.

(** Rounds that write other slots leave a slot as it is. *)
Lemma fillDays_other_slots {R : Reading} (tn tx : list temp) (slot : string * nat)
    (l : list string) :
  (∀ date, date ∈ l -> slotOf date ≠ Some slot) ->
  ∀ (yd : gmap string YearData) (i0 : nat),
    is_Some (minAt yd slot) -> is_Some (maxAt yd slot) ->
    minAt (Js.forEachFrom (fillDay tn tx) yd l i0) slot = minAt yd slot ∧
    maxAt (Js.forEachFrom (fillDay tn tx) yd l i0) slot = maxAt yd slot.
Proof.
  induction l as [ | date l IH ]; intros Hl yd i0 Hmin Hmax; cbn;
    [ by split | ].
  assert (Hd : slotOf date ≠ Some slot) by (apply Hl, list_elem_of_here).
  destruct (fillDay_other_slot tn tx yd date i0 slot Hd Hmin Hmax) as [ E1 E2 ].
  destruct (IH (fun x Hx => Hl x (list_elem_of_further _ _ _ Hx))
              (fillDay tn tx yd date i0) (S i0)) as [ F1 F2 ];
    [ by rewrite E1 | by rewrite E2 | ].
  by rewrite F1, F2, E1, E2.
Qed.

(** The first loop leaves every year with two arrays of 365 [null]s. *)
Lemma initYears_fresh {R : Reading} (dates : list string) (year : string) (y : YearData) :
  Js.forEach initYear ∅ dates !! year = Some y ->
  y = {| minTemps := replicate 365 (Some Null);
         maxTemps := replicate 365 (Some Null) |}.
Proof.
  unfold Js.forEach. revert year y.
  apply (forEachFrom_invariant
           (fun yd : gmap string YearData => ∀ year y, yd !! year = Some y ->
              y = {| minTemps := replicate 365 (Some Null);
                     maxTemps := replicate 365 (Some Null) |})).
  - intros yd date i _ Hyd. unfold initYear.
    destruct (yd !! yearOf date) eqn:E; [ exact Hyd | ].
    intros year y. rewrite lookup_insert. case_decide; [ | apply Hyd ].
    intros Hy. by apply (inj Some) in Hy.
  - intros year y H. by rewrite lookup_empty in H.
Qed.

Lemma initYears_present {R : Reading} (dates : list string) (date : string) :
  date ∈ dates -> is_Some (Js.forEach initYear ∅ dates !! yearOf date).
Proof.
  intros H. apply elem_of_dom. unfold Js.forEach. rewrite initYear_dom.
  apply elem_of_union_r, elem_of_list_to_set, list_elem_of_fmap.
  by exists date.
Qed.

(** X7.  However the browser reads the timestamps, a sample is found at
    the slot of its timestamp, the year and the day of the year less one
    that the browser reads off it, unless a later timestamp has the same
    slot:
    the two arrays hold there what [TN.data] and [TX.data] hold at the
    index of the timestamp, [null] included. *)
Theorem sample_lands_on_its_day (R : Reading) (d : SpartacusResult) (i : nat)
    (date : string) (slot : string * nat) :
  timestamps d !! i = Some date ->
  slotOf date = Some slot ->
  (∀ j later, i < j -> timestamps d !! j = Some later -> slotOf later ≠ Some slot) ->
  minAt (yearlyData d) slot = Some (TN d !! i) ∧
  maxAt (yearlyData d) slot = Some (TX d !! i).
Proof.
  intros Hi Hslot Hlater.
  assert (Hin : date ∈ timestamps d) by (apply list_elem_of_lookup; eauto).
  assert (Hyear : slot.1 = yearOf date).
  { unfold slotOf in Hslot. destruct (moment date); [ | discriminate ].
    cbn in Hslot. by injection Hslot as <-. }
  set (init := Js.forEach initYear ∅ (timestamps d)).
  set (yd := Js.forEachFrom (fillDay (TN d) (TX d)) init (take i (timestamps d)) 0).
  assert (Hfinal : yearlyData d =
            Js.forEachFrom (fillDay (TN d) (TX d))
              (fillDay (TN d) (TX d) yd date i) (drop (S i) (timestamps d)) (S i)).
  { unfold yearlyData. unfold Js.forEach at 1. fold init.
    rewrite <- (take_drop_middle _ _ _ Hi) at 1.
    rewrite forEachFrom_app. cbn [Js.forEachFrom Nat.add].
    by rewrite length_take_le by (apply lookup_lt_Some in Hi; lia). }
  rewrite Hfinal.
  assert (Hpresent : is_Some (yd !! slot.1)).
  { apply elem_of_dom. unfold yd. rewrite fillDay_dom. apply elem_of_dom.
    rewrite Hyear. by apply initYears_present. }
  destruct (fillDay_own_slot (TN d) (TX d) yd date i slot Hslot Hpresent)
    as [ E1 E2 ].
  destruct (fillDays_other_slots (TN d) (TX d) slot (drop (S i) (timestamps d)))
    with (yd := fillDay (TN d) (TX d) yd date i) (i0 := S i) as [ F1 F2 ].
  - intros later Hl. apply list_elem_of_lookup in Hl as [ k Hk ].
    rewrite lookup_drop in Hk. apply (Hlater (S i + k)); [ lia | exact Hk ].
  - rewrite E1. eauto.
  - rewrite E2. eauto.
  - by rewrite F1, F2, E1, E2.
Qed.

(** X8.  However the browser reads the timestamps, a day without
    observation stays a gap: a slot among the first 365 of a year that is
    present, which no timestamp has, holds [null] in both arrays. *)
Theorem unobserved_day_stays_null (R : Reading) (d : SpartacusResult) (slot : string * nat) :
  slot.1 ∈ yearOf <$> timestamps d ->
  slot.2 < 365 ->
  (∀ date, date ∈ timestamps d -> slotOf date ≠ Some slot) ->
  minAt (yearlyData d) slot = Some (Some Null) ∧
  maxAt (yearlyData d) slot = Some (Some Null).
Proof.
  intros Hyear Hk Hnone.
  apply list_elem_of_fmap in Hyear as (date & Hy & Hdate).
  destruct (initYears_present _ _ Hdate) as [ y Hinit ]. rewrite <- Hy in Hinit.
  pose proof (initYears_fresh _ _ _ Hinit) as ->.
  assert (Hmin : minAt (Js.forEach initYear ∅ (timestamps d)) slot = Some (Some Null)).
  { unfold minAt, minTempsOf. rewrite Hinit. cbn [fmap option_fmap option_map default minTemps].
    by apply lookup_replicate_2. }
  assert (Hmax : maxAt (Js.forEach initYear ∅ (timestamps d)) slot = Some (Some Null)).
  { unfold maxAt, maxTempsOf. rewrite Hinit. cbn [fmap option_fmap option_map default maxTemps].
    by apply lookup_replicate_2. }
  destruct (fillDays_other_slots (TN d) (TX d) slot (timestamps d) Hnone
              (Js.forEach initYear ∅ (timestamps d)) 0) as [ F1 F2 ].
  - rewrite Hmin. eauto.
  - rewrite Hmax. eauto.
  - unfold yearlyData. unfold Js.forEach at 1 3. by rewrite F1, F2.
Qed.

Lemma threeYears_no_later_2021 (j : nat) (later : string) :
  2 < j -> timestamps Example.threeYears !! j = Some later ->
  slotOf later ≠ Some ("2021", 59).
Proof.
  intros Hj Hl. do 3 (destruct j as [ | j ]; [ lia | ]).
  destruct j as [ | j ]; [ | discriminate Hl ].
  injection Hl as <-. vm_compute. discriminate.
Qed.

Lemma sample_lands_on_its_day_witness :
  let d := Example.threeYears in
  timestamps d !! 2 = Some "2021-03-01T00:00+00:00" ∧
  slotOf "2021-03-01T00:00+00:00" = Some ("2021", 59) ∧
  minAt (yearlyData d) ("2021", 59) = Some (Some (Num 1)) ∧
  maxAt (yearlyData d) ("2021", 59) = Some (Some (Num 11)).
Proof.
  intros d. split; [ reflexivity | ]. split; [ reflexivity | ].
  exact (sample_lands_on_its_day written d 2 "2021-03-01T00:00+00:00" ("2021", 59)
           eq_refl eq_refl threeYears_no_later_2021).
Defined.

Lemma oneYear_no_third_of_january (date : string) :
  date ∈ timestamps Example.oneYear -> slotOf date ≠ Some ("2021", 2).
Proof.
  intros H. cbn in H. rewrite !elem_of_cons, elem_of_nil in H.
  destruct H as [ -> | [ -> | [] ] ]; vm_compute; discriminate.
Qed.

Lemma oneYear_has_2021 : "2021" ∈ yearOf <$> timestamps Example.oneYear.
Proof. vm_compute. apply list_elem_of_here. Qed.

Lemma unobserved_day_stays_null_witness :
  let d := Example.oneYear in
  "2021" ∈ yearOf <$> timestamps d ∧
  minAt (yearlyData d) ("2021", 2) = Some (Some Null) ∧
  maxAt (yearlyData d) ("2021", 2) = Some (Some Null).
Proof.
  intros d. split; [ exact oneYear_has_2021 | ].
  apply (unobserved_day_stays_null written d ("2021", 2) oneYear_has_2021).
  - cbn. lia.
  - exact oneYear_no_third_of_january.
Defined.

End Slots.

(** ** Charts over a run of calls *)

Section Charts.

Lemma createCharts_snoc (calls : list Call) (c : Call) (w : Canvases) :
  createCharts (calls ++ [ c ]) w = createChartCall (createCharts calls w) c.
Proof. unfold createCharts. by rewrite foldl_app. Qed.

(** The chart of a canvas, read off the calls made on it. *)
Lemma createCharts_latest (calls : list Call) (canvas : nat) :
  match bound (createCharts calls blank) !! canvas with
  | None => callsOn canvas calls = []
  | Some chart =>
      ∃ before labels datasets dateFormat,
        callsOn canvas calls = before ++ [ (canvas, labels, datasets, dateFormat) ] ∧
        Chart.labels chart = labels ∧
        Chart.datasets chart = normalize <$> datasets ∧
        Chart.dayFormat chart = dateFormat ∧
        Chart.updates chart = length before
  end.
Proof.
  induction calls as [ | [ [ [ c labels ] datasets ] dateFormat ] calls IH ]
    using rev_ind.
  - cbn. by rewrite lookup_empty.
  - rewrite createCharts_snoc. unfold callsOn in *. rewrite filter_app.
    cbn [createChartCall].
    set (w := createCharts calls blank) in *.
    rewrite filter_cons, filter_nil. cbn [fst].
    unfold createChart. destruct (decide (c = canvas)) as [ -> | Hne ].
    + destruct (bound w !! canvas) as [ chart | ] eqn:E; cbn [bound];
        rewrite lookup_insert_eq.
      * destruct IH as (before & l & ds & f & Hon & _ & _ & _ & Hu).
        exists (before ++ [ (canvas, l, ds, f) ]), labels, datasets, dateFormat.
        rewrite Hon. repeat split; try reflexivity. cbn.
        rewrite Hu, length_app. cbn. lia.
      * exists [], labels, datasets, dateFormat.
        rewrite IH. repeat split; reflexivity.
    + rewrite app_nil_r.
      destruct (bound w !! c) as [ chart | ]; cbn [bound];
        by rewrite lookup_insert_ne.
Qed.

(** X9.  After any run of [createChart] calls on a document that started
    without charts, a canvas no call was made on has no chart, and a canvas
    some call was made on shows the labels, the normalised datasets and the
    date format of the latest call on it, whatever was drawn on other
    canvases in between; [update()] ran once for every call on it but the
    first. *)
Theorem chart_shows_latest_call (calls : list Call) (canvas : nat) :
  match bound (createCharts calls blank) !! canvas with
  | None => callsOn canvas calls = []
  | Some chart =>
      ∃ before labels datasets dateFormat,
        callsOn canvas calls =
          before ++ [ (canvas, labels, datasets, dateFormat) ] ∧
        Chart.labels chart = labels ∧
        Chart.datasets chart = normalize <$> datasets ∧
        Chart.dayFormat chart = dateFormat ∧
        Chart.updates chart = length before
  end.
Proof. apply createCharts_latest. Qed.

Lemma normalize_shape (d : Dataset) :
  pointRadius (normalize d) = Some 0 ∧
  (∃ w, borderWidth (normalize d) = Some w ∧ 1 <= w ∧
        (∀ n, borderWidth d = Some (S n) -> w = S n)) ∧
  label (normalize d) = label d ∧ data (normalize d) = data d ∧
  borderColor (normalize d) = borderColor d ∧ fill (normalize d) = fill d.
Proof.
  unfold normalize. cbn. split; [ reflexivity | ]. split; [ | by repeat split ].
  destruct (borderWidth d) as [ [ | n ] | ];
    eexists; (split; [ reflexivity | ]); (split; [ lia | ]); congruence.
Qed.

(** X10.  In every chart, after any run of calls, each dataset is drawn
    without point markers and with a line width of at least 1: the point
    radius is 0 and a width that was missing or 0 is 1. *)
Theorem charts_hold_normalised_datasets (calls : list Call) (canvas : nat)
    (chart : Chart.t) :
  bound (createCharts calls blank) !! canvas = Some chart ->
  Forall (fun d => pointRadius d = Some 0 ∧
                   ∃ w, borderWidth d = Some w ∧ 1 <= w)
         (Chart.datasets chart).
Proof.
  intros H. pose proof (createCharts_latest calls canvas) as L.
  rewrite H in L. destruct L as (_ & _ & ds & _ & _ & _ & -> & _).
  apply Forall_fmap, Forall_true. intros d. cbn.
  destruct (normalize_shape d) as (Hp & (w & Hw & H1 & _) & _). eauto.
Qed.

(** The identity of a chart is the position of its canvas among the
    canvases handed to [new Chart]. *)
Lemma createCharts_ids (calls : list Call) (canvas : nat) (chart : Chart.t) :
  bound (createCharts calls blank) !! canvas = Some chart ->
  constructed (createCharts calls blank) !! Chart.id chart = Some canvas.
Proof.
  revert canvas chart.
  induction calls as [ | [ [ [ c labels ] datasets ] dateFormat ] calls IH ]
    using rev_ind; intros canvas chart.
  - cbn. by rewrite lookup_empty.
  - rewrite createCharts_snoc. cbn [createChartCall].
    set (w := createCharts calls blank) in *. unfold createChart.
    destruct (bound w !! c) as [ old | ] eqn:E; cbn [bound constructed];
      rewrite lookup_insert; case_decide; subst.
    + intros [= <-]. cbn. by apply IH.
    + apply IH.
    + intros [= <-]. cbn. by rewrite lookup_app_r, Nat.sub_diag.
    + intros H'. rewrite lookup_app_l; [ by apply IH | ].
      eapply lookup_lt_Some. by apply IH.
Qed.

(** X11.  Two canvases never share a chart instance: after any run of
    calls, charts found in different canvases have different identities. *)
Theorem canvases_hold_distinct_instances (calls : list Call)
    (c1 c2 : nat) (chart1 chart2 : Chart.t) :
  bound (createCharts calls blank) !! c1 = Some chart1 ->
  bound (createCharts calls blank) !! c2 = Some chart2 ->
  c1 ≠ c2 -> Chart.id chart1 ≠ Chart.id chart2.
Proof.
  intros H1 H2 Hne Hid.
  apply createCharts_ids in H1, H2. rewrite Hid in H1. congruence.
Qed.

Lemma charts_hold_normalised_datasets_witness :
  ∃ chart,
    bound (createCharts Example.calls blank) !! 0 = Some chart ∧
    Forall (fun d => pointRadius d = Some 0 ∧
                     ∃ w, borderWidth d = Some w ∧ 1 <= w)
           (Chart.datasets chart).
Proof.
  eexists. split; [ vm_compute; reflexivity | ].
  apply (charts_hold_normalised_datasets Example.calls 0).
  vm_compute. reflexivity.
Defined.

Lemma canvases_hold_distinct_instances_witness :
  ∃ chart1 chart2,
    bound (createCharts Example.calls blank) !! 0 = Some chart1 ∧
    bound (createCharts Example.calls blank) !! 1 = Some chart2 ∧
    Chart.id chart1 ≠ Chart.id chart2.
Proof.
  eexists. eexists.
  split; [ vm_compute; reflexivity | ]. split; [ vm_compute; reflexivity | ].
  apply (canvases_hold_distinct_instances Example.calls 0 1);
    [ vm_compute; reflexivity | vm_compute; reflexivity | discriminate ].
Defined.

End Charts.

(** ** Loading and searching, the other paths *)

Section Paths.

Import MainPage.

(** What [renderCharts] hands to [createChart] for the series [d]. *)
Lemma renderCharts_run (p : t) :
  renderCharts p =
    (Some (),
     {| form := form p; chart := chart p; lat := lat p; lng := lng p;
        isLoading := isLoading p; error := error p;
        searchResults := searchResults p; data := data p;
        canvases :=
          match data p with
          | None => canvases p
          | Some d =>
              if stackYears (form p)
              then createChart (chart p) Stack.labels
                     (Stack.datasets (firstLastYear (form p)) (minTemp (form p))
                        (maxTemp (form p)) d) "DD-MM" (canvases p)
              else createChart (chart p) (timestamps d)
                     (plainDatasets (minTemp (form p)) (maxTemp (form p)) d)
                     "YYYY-MM-DD" (canvases p)
          end;
        trace := trace p ++ [ CallRenderCharts ] |}).
Proof.
  unfold renderCharts, mbind, M_bind, get, emit, onCanvases.
  cbn [data form chart].
  destruct (data p) as [ d | ]; [ destruct (stackYears (form p)) | ];
    reflexivity.
Qed.

(** A load that succeeds, field by field. *)
Lemma loadData_success_run (d : SpartacusResult) (p : t) :
  startDateInput (form p) ≠ "" -> endDateInput (form p) ≠ "" ->
  let p' := (loadData (Reply true (Some d)) p).2 in
  (loadData (Reply true (Some d)) p).1 = Some () ∧
  data p' = Some d ∧
  error p' = Some "" ∧ banner p' = None ∧ isLoading p' = false ∧
  searchResults p' = searchResults p ∧
  canvases p' =
    (if stackYears (form p)
     then createChart (chart p) Stack.labels
            (Stack.datasets (firstLastYear (form p)) (minTemp (form p))
               (maxTemp (form p)) d) "DD-MM" (canvases p)
     else createChart (chart p) (timestamps d)
            (plainDatasets (minTemp (form p)) (maxTemp (form p)) d)
            "YYYY-MM-DD" (canvases p)) ∧
  trace p' =
    trace p ++
    [ SetError ""; SetLoading true;
      Fetch (Timeseries (startDateInput (form p) +:+ "T00:00:00.000Z")
                        (endDateInput (form p) +:+ "T00:00:00.000Z")
                        (lat p) (lng p));
      SetData; CallRenderCharts; SetLoading false ].
Proof.
  intros Hs He p'. subst p'. rewrite (loadData_attempt _ p Hs He).
  unfold loadTry. run_page. rewrite renderCharts_run.
  cbn [fst snd form chart lat lng isLoading error searchResults data canvases
       trace banner].
  rewrite <- !app_assoc. repeat split; reflexivity.
Qed.

(** X12.  A load that succeeds, both date fields being filled in, issues
    one request for the two dates at midnight UTC and the current
    coordinate, stores the series, draws it on the page's canvas as the
    checkboxes say (stacked: the day labels and the stacked datasets with
    format DD-MM; otherwise the timestamps and one dataset per enabled
    series with format YYYY-MM-DD), and leaves no error and no spinner. *)
Theorem loadData_success_draws (d : SpartacusResult) (p : t) :
  startDateInput (form p) ≠ "" -> endDateInput (form p) ≠ "" ->
  let p' := (loadData (Reply true (Some d)) p).2 in
  (loadData (Reply true (Some d)) p).1 = Some () ∧
  data p' = Some d ∧
  error p' = Some "" ∧ banner p' = None ∧ isLoading p' = false ∧
  searchResults p' = searchResults p ∧
  canvases p' =
    (if stackYears (form p)
     then createChart (chart p) Stack.labels
            (Stack.datasets (firstLastYear (form p)) (minTemp (form p))
               (maxTemp (form p)) d) "DD-MM" (canvases p)
     else createChart (chart p) (timestamps d)
            (plainDatasets (minTemp (form p)) (maxTemp (form p)) d)
            "YYYY-MM-DD" (canvases p)) ∧
  trace p' =
    trace p ++
    [ SetError ""; SetLoading true;
      Fetch (Timeseries (startDateInput (form p) +:+ "T00:00:00.000Z")
                        (endDateInput (form p) +:+ "T00:00:00.000Z")
                        (lat p) (lng p));
      SetData; CallRenderCharts; SetLoading false ].
Proof. apply loadData_success_run. Qed.

(** X13.  A response with a success status whose body cannot be read as
    JSON ends like a failed fetch, for the series and for the search alike:
    the generic message is displayed, the loading flag is false, and the
    series, the canvases and the search results are as before. *)
Theorem unreadable_body_is_an_error (p : t) :
  startDateInput (form p) ≠ "" -> endDateInput (form p) ≠ "" ->
  let p1 := (loadData (Reply true None) p).2 in
  let p2 := (search (Reply true None) p).2 in
  (banner p1 = Some whoopsies ∧ isLoading p1 = false ∧ data p1 = data p ∧
   canvases p1 = canvases p ∧ searchResults p1 = searchResults p) ∧
  (banner p2 = Some whoopsies ∧ isLoading p2 = false ∧ data p2 = data p ∧
   canvases p2 = canvases p ∧ searchResults p2 = searchResults p).
Proof.
  intros Hs He p1 p2. subst p1 p2. rewrite (loadData_attempt _ p Hs He).
  unfold loadTry, search. run_page. repeat split; reflexivity.
Qed.

(** [trim] strips the white space of Unicode, not of ASCII alone, and
    leaves the white space inside the text. *)
Lemma trim_pastedAddress :
  trim Example.pastedAddress = "Wien" ∧
  trim (Example.pastedAddress +:+ "Neubau" +:+ Example.pastedAddress) =
    "Wien" +:+ Example.utf8 [ 9; 226; 128; 168; 239; 187; 191 ] +:+ "Neubau"
    +:+ Example.utf8 [ 194; 160; 32 ] +:+ "Wien".
Proof. split; vm_compute; reflexivity. Qed.

(** X14.  A search that succeeds issues one request for the trimmed
    address and displays the first three results at most; it touches
    neither the series nor the canvases, and it leaves [error] as it was,
    so a message displayed before the search is still displayed after. *)
Theorem search_success_keeps_three (results : list GeocodingResult) (p : t) :
  let p' := (search (Reply true (Some results)) p).2 in
  (search (Reply true (Some results)) p).1 = Some () ∧
  searchResults p' = take 3 results ∧
  length (searchResults p') <= 3 ∧
  error p' = error p ∧ banner p' = banner p ∧
  isLoading p' = false ∧
  data p' = data p ∧ canvases p' = canvases p ∧
  trace p' =
    trace p ++ [ Fetch (Search (trim (address (form p))));
                 SetSearchResults; SetLoading false ].
Proof.
  intros p'. subst p'. unfold search. run_page.
  rewrite <- !app_assoc.
  repeat split; try reflexivity. rewrite length_take. lia.
Qed.

Lemma loadData_success_draws_witness :
  let p := Sample.page "2021-01-01" "2021-01-02" (Some whoopsies) [] in
  let p' := (loadData (Reply true (Some Example.oneYear)) p).2 in
  startDateInput (form p) ≠ "" ∧ endDateInput (form p) ≠ "" ∧
  data p' = Some Example.oneYear ∧ banner p' = None ∧ isLoading p' = false.
Proof.
  intros p p'.
  assert (Hs : startDateInput (form p) ≠ "") by discriminate.
  assert (He : endDateInput (form p) ≠ "") by discriminate.
  destruct (loadData_success_draws Example.oneYear p Hs He)
    as (_ & Hd & _ & Hb & Hl & _).
  repeat split; assumption.
Defined.

Lemma unreadable_body_is_an_error_witness :
  let p := Sample.page "2021-01-01" "2021-01-02" None [ Sample.wien ] in
  startDateInput (form p) ≠ "" ∧ endDateInput (form p) ≠ "" ∧
  banner (loadData (Reply true None) p).2 = Some whoopsies ∧
  searchResults (search (Reply true None) p).2 = [ Sample.wien ].
Proof.
  intros p.
  assert (Hs : startDateInput (form p) ≠ "") by discriminate.
  assert (He : endDateInput (form p) ≠ "") by discriminate.
  destruct (unreadable_body_is_an_error p Hs He)
    as ((Hb & _) & (_ & _ & _ & _ & Hr)).
  repeat split; assumption.
Defined.

End Paths.

(** ** Sessions *)

Section Sessions.

Import MainPage App.

(** What [loadData] leaves alone, and what it may do to the canvases. *)
Lemma loadData_footprint (r : Response SpartacusResult) (p : MainPage.t) :
  let p' := (loadData r p).2 in
  form p' = form p ∧ chart p' = chart p ∧ lat p' = lat p ∧ lng p' = lng p ∧
  searchResults p' = searchResults p ∧
  (isLoading p = false -> isLoading p' = false) ∧
  (canvases p' = canvases p ∨
   ∃ labels datasets dateFormat,
     canvases p' = createChart (chart p) labels datasets dateFormat (canvases p)) ∧
  requests (trace p') = requests (trace p) ++ timeseriesRequest p.
Proof.
  intros p'. subst p'. unfold timeseriesRequest.
  destruct (decide (startDateInput (form p) = "")) as [ Hs | Hs ];
    [ | destruct (decide (endDateInput (form p) = "")) as [ He | He ] ].
  - rewrite (loadData_skip r p) by by left.
    rewrite (bool_decide_eq_true_2 _ Hs). cbn. rewrite requests_app, !app_nil_r.
    repeat split; auto.
  - rewrite (loadData_skip r p) by by right.
    rewrite (bool_decide_eq_true_2 _ He), orb_true_r. cbn.
    rewrite requests_app, !app_nil_r. repeat split; auto.
  - rewrite (loadData_attempt r p Hs He).
    rewrite (bool_decide_eq_false_2 _ Hs), (bool_decide_eq_false_2 _ He).
    cbn [orb]. unfold loadTry.
    destruct r as [ | [ | ] [ d | ] ]; run_page;
      try rewrite renderCharts_run;
      cbn [fst snd form chart lat lng isLoading error searchResults data
           canvases trace];
      rewrite <- ?app_assoc, requests_app; cbn [app];
      repeat split; try reflexivity; try (left; reflexivity).
    right. destruct (stackYears (form p)); eauto.
Qed.

Lemma search_footprint (r : Response (list GeocodingResult)) (p : MainPage.t) :
  let p' := (search r p).2 in
  form p' = form p ∧ chart p' = chart p ∧ lat p' = lat p ∧ lng p' = lng p ∧
  data p' = data p ∧ canvases p' = canvases p ∧ isLoading p' = false ∧
  (length (searchResults p) <= 3 -> length (searchResults p') <= 3) ∧
  requests (trace p') = requests (trace p) ++ [ Search (trim (address (form p))) ].
Proof.
  intros p'. subst p'. unfold search.
  destruct r as [ | [ | ] [ results | ] ]; run_page;
    rewrite <- ?app_assoc, requests_app; cbn [app];
    repeat split; try reflexivity; try (intros H; exact H).
  intros _. rewrite length_take. lia.
Qed.

(** [setMarker], from a state whose marker, if any, is the one marker on
    the map. *)
Lemma setMarker_spec (s : App.t) :
  (marker s = None ∧ Leaflet.markers (map s) = [] ∨
   ∃ old, marker s = Some old ∧ Leaflet.markers (map s) = [ old ]) ->
  page (setMarker s) = (setError "" (page s)).2 ∧
  (∃ m, marker (setMarker s) = Some m ∧
        Leaflet.markers (map (setMarker s)) = [ m ] ∧
        Leaflet.position m = (lat (page s), lng (page s)) ∧
        Leaflet.id m = Leaflet.made (map s)) ∧
  Leaflet.center (map (setMarker s)) = (lat (page s), lng (page s)) ∧
  Leaflet.zoom (map (setMarker s)) = Leaflet.zoom (map s) ∧
  Leaflet.tileLayers (map (setMarker s)) = Leaflet.tileLayers (map s) ∧
  Leaflet.made (map (setMarker s)) = S (Leaflet.made (map s)).
Proof.
  unfold setMarker. intros [ [ -> Hm ] | (old & -> & Hm) ]; cbn; rewrite Hm.
  - repeat split; eauto.
  - rewrite filter_cons_False by (intros H; by apply H). rewrite filter_nil.
    repeat split; eauto.
Qed.

Lemma createChart_same_canvas (canvas : nat) labels datasets dateFormat
    (w : Canvases) :
  (∀ c, c ∈ constructed w -> c = canvas) ->
  ∀ c, c ∈ constructed (createChart canvas labels datasets dateFormat w) ->
       c = canvas.
Proof.
  intros Hw c. unfold createChart.
  destruct (bound w !! canvas); cbn; [ apply Hw | ].
  rewrite elem_of_app, list_elem_of_singleton. intros [ H | H ]; auto.
Qed.

Lemma inv_loadData (canvas : nat) (r : Response SpartacusResult) (s : App.t) :
  sessionInv canvas s -> sessionInv canvas (run (loadData r) s).
Proof.
  intros (Hc & Hl & Hr & (m & Hm & Hms & Hp & Hce & Hid) & Hz & Ht & Hci & Hco).
  destruct (loadData_footprint r (page s))
    as (Ff & Fc & Fla & Fln & Fr & Fl & Fcv & _).
  unfold sessionInv, markerOk, run. cbn [page map marker].
  rewrite Fc, Fla, Fln, Fr.
  repeat split; auto; try (exists m; by repeat split);
    destruct Fcv as [ -> | (l & ds & f & ->) ]; auto;
    try apply Hci; try (by apply createChart_inv);
    rewrite Hc; by apply createChart_same_canvas.
Qed.

Lemma inv_search (canvas : nat) (r : Response (list GeocodingResult)) (s : App.t) :
  sessionInv canvas s -> sessionInv canvas (run (search r) s).
Proof.
  intros (Hc & Hl & Hr & (m & Hm & Hms & Hp & Hce & Hid) & Hz & Ht & Hci & Hco).
  destruct (search_footprint r (page s))
    as (Ff & Fc & Fla & Fln & Fd & Fcv & Fl & Fr & _).
  unfold sessionInv, markerOk, run. cbn [page map marker].
  rewrite Fc, Fla, Fln, Fcv.
  repeat split; auto; try apply Hci. exists m; by repeat split.
Qed.

Lemma inv_renderCharts (canvas : nat) (s : App.t) :
  sessionInv canvas s -> sessionInv canvas (run renderCharts s).
Proof.
  intros (Hc & Hl & Hr & (m & Hm & Hms & Hp & Hce & Hid) & Hz & Ht & Hci & Hco).
  unfold sessionInv, markerOk, run. cbn [page map marker].
  rewrite renderCharts_run.
  cbn [snd form chart lat lng isLoading error searchResults data canvases].
  repeat split; auto; try (exists m; by repeat split);
    destruct (data (page s)) as [ d | ]; try destruct (stackYears (form (page s)));
    auto; try apply Hci; try (by apply createChart_inv);
    rewrite Hc; by apply createChart_same_canvas.
Qed.

Lemma inv_withForm (canvas : nat) (f : Form) (s : App.t) :
  sessionInv canvas s ->
  sessionInv canvas {| page := withForm f (page s); map := map s; marker := marker s |}.
Proof. intros H. exact H. Qed.

Lemma inv_clickMap (canvas : nat) (latitude longitude : Q)
    (r : Response SpartacusResult) (s : App.t) :
  sessionInv canvas s -> sessionInv canvas (clickMap latitude longitude r s).
Proof.
  intros (Hc & Hl & Hr & (m & Hm & Hms & Hp & Hce & Hid) & Hz & Ht & Hci & Hco).
  unfold clickMap. apply inv_loadData.
  set (s1 := {| page := withCoordinate latitude longitude (page s);
                map := map s; marker := marker s |}).
  destruct (setMarker_spec s1) as (Ep & (m' & Hm' & Hms' & Hp' & Hid') & Hce' & Hz' & Ht' & Hmade);
    [ right; by exists m | ].
  unfold sessionInv, markerOk. rewrite Ep, Hz', Ht'.
  cbn [snd setError form chart lat lng isLoading error searchResults data
       canvases s1 page map withCoordinate].
  repeat split; auto; try apply Hci.
  exists m'. rewrite Hce', Hmade, Hid'. cbn [s1 page map withCoordinate lat lng] in *.
  repeat split; auto.
Qed.

Lemma handle_inv (canvas : nat) (s : App.t) (e : Event) :
  sessionInv canvas s -> sessionInv canvas (handle s e).
Proof.
  intros H. unfold handle.
  pose proof (inv_withForm canvas (edited e (form (page s))) s H) as H'.
  destruct e; auto using inv_loadData, inv_search, inv_renderCharts, inv_clickMap.
Qed.

Lemma firstUpdated_inv (f : Form) (canvas : nat) (r : Response SpartacusResult) :
  sessionInv canvas (firstUpdated (initial f canvas) r).
Proof.
  unfold firstUpdated. apply inv_loadData.
  set (s0 := {| page := initial f canvas;
                map := Leaflet.addTileLayer tiles
                         (Leaflet.create (lat (initial f canvas), lng (initial f canvas)) 7);
                marker := None |}).
  destruct (setMarker_spec s0) as (Ep & (m & Hm & Hms & Hp & Hid) & Hce & Hz & Ht & Hmade);
    [ left; by split | ].
  unfold sessionInv, markerOk. rewrite Ep, Hz, Ht.
  cbn [snd setError form chart lat lng isLoading error searchResults data
       canvases s0 page map initial].
  repeat split; auto; try apply chartsInv_blank; try reflexivity;
    try (cbn; lia).
  - exists m. rewrite Hce, Hmade, Hid. cbn [s0 page map initial lat lng] in *.
    repeat split; auto.
  - cbn. intros c Hcn. by apply elem_of_nil in Hcn.
Qed.

Lemma session_inv (f : Form) (canvas : nat) (r : Response SpartacusResult)
    (es : list Event) :
  sessionInv canvas (handleAll es (firstUpdated (initial f canvas) r)).
Proof.
  unfold handleAll. generalize (firstUpdated_inv f canvas r).
  generalize (firstUpdated (initial f canvas) r). 
  induction es as [ | e es IH ]; intros s Hs; cbn; [ exact Hs | ].
  apply IH. by apply handle_inv.
Qed.

(** X15.  Throughout a session, whatever the user does and the network
    answers, the map carries exactly one marker, the one the page holds; it
    stands on the current coordinate, on which the map is centred, and the
    zoom stays at 7. *)
Theorem session_one_marker (f : Form) (canvas : nat)
    (r : Response SpartacusResult) (es : list Event) :
  let s := handleAll es (firstUpdated (initial f canvas) r) in
  ∃ m, marker s = Some m ∧
       Leaflet.markers (map s) = [ m ] ∧
       Leaflet.position m = (lat (page s), lng (page s)) ∧
       Leaflet.center (map s) = (lat (page s), lng (page s)) ∧
       Leaflet.zoom (map s) = 7.
Proof.
  intros s.
  destruct (session_inv f canvas r es)
    as (_ & _ & _ & (m & Hm & Hms & Hp & Hce & _) & Hz & _).
  exists m. by repeat split.
Qed.

(** X16.  Throughout a session at most three search results are displayed,
    and once an event is handled and its fetch answered the loading flag is
    false. *)
Theorem session_three_results_no_spinner (f : Form) (canvas : nat)
    (r : Response SpartacusResult) (es : list Event) :
  let s := handleAll es (firstUpdated (initial f canvas) r) in
  length (searchResults (page s)) <= 3 ∧ isLoading (page s) = false.
Proof.
  intros s. destruct (session_inv f canvas r es) as (_ & Hl & Hr & _).
  by split.
Qed.

(** X17.  Throughout a session the page constructs at most one chart, and
    only on its own canvas: every load and every change of a checkbox after
    the first draw updates that instance. *)
Theorem session_one_chart (f : Form) (canvas : nat)
    (r : Response SpartacusResult) (es : list Event) :
  let s := handleAll es (firstUpdated (initial f canvas) r) in
  length (constructed (canvases (page s))) <= 1 ∧
  ∀ c, c ∈ constructed (canvases (page s)) -> c = canvas.
Proof.
  intros s.
  destruct (session_inv f canvas r es) as (_ & _ & _ & _ & _ & _ & [ Hnd _ ] & Hc).
  split; [ | exact Hc ]. fold s in Hnd, Hc.
  destruct (constructed (canvases (page s))) as [ | a [ | b l ] ]; cbn; try lia.
  exfalso. apply NoDup_cons in Hnd as [ Ha _ ]. apply Ha.
  rewrite (Hc a), (Hc b); [ apply list_elem_of_here | | ];
    rewrite !elem_of_cons; auto.
Qed.

(** X18.  The requests of an event.  A change of a date input issues one
    timeseries request for the two dates at midnight UTC and the current
    coordinate, or none when a date field is empty; a click on the map
    issues the same for the clicked coordinate; the search issues one
    search for the trimmed address; a change of a checkbox and typing an
    address issue none. *)
Theorem requests_of_an_event (s : App.t) (e : Event) :
  requests (trace (page (handle s e))) =
  requests (trace (page s)) ++ expected s e.
Proof.
  unfold handle, expected, clickMap, run. cbn [page map marker].
  set (p := withForm (edited e (form (page s))) (page s)).
  assert (Hp : trace p = trace (page s)) by reflexivity.
  destruct e; cbv beta iota; cbn [page map marker];
    try (destruct (loadData_footprint r p) as (_ & _ & _ & _ & _ & _ & _ & ->);
         by rewrite Hp);
    try (rewrite renderCharts_run; cbn [snd trace];
         by rewrite requests_app, Hp);
    try (by rewrite app_nil_r).
  - destruct (search_footprint r p) as (_ & _ & _ & _ & _ & _ & _ & _ & ->).
    by rewrite Hp.
  - unfold setMarker. cbn [page map marker Leaflet.addMarker].
    match goal with
    | |- context [ loadData r ?q ] =>
        destruct (loadData_footprint r q) as (_ & _ & _ & _ & _ & _ & _ & ->)
    end.
    cbn [snd setError trace withCoordinate]. rewrite requests_app, Hp.
    cbn [requests omap]. by rewrite app_nil_r.
Qed.

(** X19.  A change of a checkbox redraws and does nothing else: when a
    series is loaded, the page's canvas is drawn with what the checkboxes
    now say; the series, the error, the loading flag, the search results,
    the coordinate, the map and the marker are as before, and no request
    is issued.  Without a series nothing is drawn. *)
Theorem toggle_only_redraws (s : App.t) (e : Event) :
  isToggle e = true ->
  let f := edited e (form (page s)) in
  let p := page s in
  let p' := page (handle s e) in
  form p' = f ∧ data p' = data p ∧ error p' = error p ∧
  isLoading p' = isLoading p ∧ searchResults p' = searchResults p ∧
  lat p' = lat p ∧ lng p' = lng p ∧
  map (handle s e) = map s ∧ marker (handle s e) = marker s ∧
  requests (trace p') = requests (trace p) ∧
  canvases p' =
    match data p with
    | None => canvases p
    | Some d =>
        if stackYears f
        then createChart (chart p) Stack.labels
               (Stack.datasets (firstLastYear f) (minTemp f) (maxTemp f) d)
               "DD-MM" (canvases p)
        else createChart (chart p) (timestamps d)
               (plainDatasets (minTemp f) (maxTemp f) d) "YYYY-MM-DD"
               (canvases p)
    end.
Proof.
  intros Ht f p p'. subst f p p'.
  destruct e; try discriminate Ht; unfold handle, run; cbn [page map marker];
    rewrite renderCharts_run;
    cbn [snd form chart lat lng isLoading error searchResults data canvases
         trace withForm];
    rewrite requests_app; cbn [requests omap]; rewrite app_nil_r;
    repeat split; reflexivity.
Qed.

(** X20.  Start-up.  When both date inputs are filled in and the first
    load succeeds, [firstUpdated] leaves a map at zoom 7 with its tile
    layer, one request for the initial coordinate, the series stored, and
    one chart, constructed on the page's canvas and not yet updated. *)
Theorem startup_draws_first_chart (f : Form) (canvas : nat) (d : SpartacusResult) :
  startDateInput f ≠ "" -> endDateInput f ≠ "" ->
  let s := firstUpdated (initial f canvas) (Reply true (Some d)) in
  data (page s) = Some d ∧ banner (page s) = None ∧
  requests (trace (page s)) =
    [ Timeseries (startDateInput f +:+ "T00:00:00.000Z")
                 (endDateInput f +:+ "T00:00:00.000Z")
                 (lat (initial f canvas)) (lng (initial f canvas)) ] ∧
  constructed (canvases (page s)) = [ canvas ] ∧
  (∃ chart, bound (canvases (page s)) !! canvas = Some chart ∧
            Chart.updates chart = 0) ∧
  Leaflet.zoom (map s) = 7 ∧ Leaflet.tileLayers (map s) = [ tiles ].
Proof.
  intros Hs He s. subst s. unfold firstUpdated, run. cbn [page map marker].
  set (s0 := {| page := initial f canvas;
                map := Leaflet.addTileLayer tiles
                         (Leaflet.create (lat (initial f canvas), lng (initial f canvas)) 7);
                marker := None |}).
  destruct (setMarker_spec s0) as (Ep & _ & _ & Hz & Ht & _);
    [ left; by split | ].
  rewrite Ep, Hz, Ht.
  set (p := (setError "" (page s0)).2).
  destruct (loadData_success_run d p Hs He)
    as (_ & Hd & _ & Hb & _ & _ & Hcv & Htr).
  rewrite Hd, Hb, Hcv, Htr.
  repeat split; try reflexivity;
    destruct (stackYears (form p)); unfold createChart;
    cbn [p s0 page setError snd canvases chart initial blank bound constructed];
    rewrite ?lookup_empty; cbn [bound constructed app];
    try reflexivity; rewrite lookup_insert_eq; eauto.
Qed.

Lemma startup_draws_first_chart_witness :
  let f := Example.form "2021-01-01" "2021-01-02" in
  let s := firstUpdated (initial f 0) (Reply true (Some Example.oneYear)) in
  startDateInput f ≠ "" ∧ endDateInput f ≠ "" ∧
  data (page s) = Some Example.oneYear ∧
  constructed (canvases (page s)) = [ 0 ].
Proof.
  intros f s.
  assert (Hs : startDateInput f ≠ "") by discriminate.
  assert (He : endDateInput f ≠ "") by discriminate.
  destruct (startup_draws_first_chart f 0 Example.oneYear Hs He)
    as (Hd & _ & _ & Hc & _).
  repeat split; assumption.
Defined.

Lemma toggle_only_redraws_witness :
  let s := firstUpdated (initial (Example.form "2021-01-01" "2021-01-02") 0)
             (Reply true (Some Example.oneYear)) in
  let e := ToggleStackYears in
  isToggle e = true ∧
  stackYears (form (page (handle s e))) = false ∧
  data (page (handle s e)) = Some Example.oneYear ∧
  requests (trace (page (handle s e))) = requests (trace (page s)).
Proof.
  intros s e.
  destruct (toggle_only_redraws s e eq_refl)
    as (Hf & Hd & _ & _ & _ & _ & _ & _ & _ & Hr & _).
  split; [ reflexivity | ]. split; [ by rewrite Hf | ].
  split; [ by rewrite Hd | exact Hr ].
Defined.

(** X21.  A click on the map, at any point of a session, makes the clicked
    point the current coordinate and replaces the marker: the old marker is
    taken off the map and a new one, a different object, stands alone on
    the clicked point, on which the map is centred. *)
Theorem click_replaces_marker (f : Form) (canvas : nat)
    (r0 : Response SpartacusResult) (es : list Event)
    (latitude longitude : Q) (r : Response SpartacusResult) :
  let s := handleAll es (firstUpdated (initial f canvas) r0) in
  let s' := handle s (ClickMap latitude longitude r) in
  lat (page s') = latitude ∧ lng (page s') = longitude ∧
  ∃ old new,
    marker s = Some old ∧ marker s' = Some new ∧
    Leaflet.markers (map s') = [ new ] ∧
    Leaflet.position new = (latitude, longitude) ∧
    Leaflet.center (map s') = (latitude, longitude) ∧
    Leaflet.id new ≠ Leaflet.id old.
Proof.
  intros s s'.
  destruct (session_inv f canvas r0 es)
    as (_ & _ & _ & (old & Hm & Hms & _ & _ & Hid) & _).
  fold s in Hm, Hms, Hid. subst s'. unfold handle, clickMap, run.
  cbn [page map marker edited].
  set (s1 := {| page := withCoordinate latitude longitude
                          (withForm (form (page s)) (page s));
                map := map s; marker := marker s |}).
  destruct (setMarker_spec s1)
    as (Ep & (new & Hm' & Hms' & Hp' & Hid') & Hce' & _);
    [ right; by exists old | ].
  destruct (loadData_footprint r (page (setMarker s1)))
    as (_ & _ & -> & -> & _).
  rewrite Ep. cbn [snd setError lat lng s1 page withCoordinate].
  split; [ reflexivity | ]. split; [ reflexivity | ].
  exists old, new. rewrite Hid'. cbn [s1 map page] in *.
  repeat split; auto. lia.
Qed.

End Sessions.

(** ** The text of a date *)

Section DateText.

Lemma printed_four (y : nat) :
  1000 <= y < 10 * 1000 ->
  ∃ a b c d, Js.toString y = String a (String b (String c (String d ""))) ∧
             Moment.number4 a b c d = Some y.
Proof.
  intros Hy.
  assert (H : forallb Printed.fourDigits (seq 1000 (9 * 1000)) = true)
    by (vm_compute; reflexivity).
  rewrite forallb_forall in H. specialize (H y).
  assert (Hin : In y (seq 1000 (9 * 1000))) by (apply in_seq; lia).
  apply H in Hin. unfold Printed.fourDigits in Hin.
  destruct (Js.toString y) as [ | a [ | b [ | c [ | d [ | ] ] ] ] ];
    try discriminate Hin.
  exists a, b, c, d. split; [ reflexivity | ]. by apply bool_decide_eq_true in Hin.
Qed.

Lemma printed_two (n : nat) :
  n <= 99 ->
  ∃ a b, Js.padStart 2 "0" (Js.toString n) = String a (String b "") ∧
         Moment.number2 a b = Some n.
Proof.
  intros Hn.
  assert (H : forallb Printed.twoDigits (seq 0 100) = true)
    by (vm_compute; reflexivity).
  rewrite forallb_forall in H. specialize (H n).
  assert (Hin : In n (seq 0 100)) by (apply in_seq; lia).
  apply H in Hin. unfold Printed.twoDigits in Hin.
  destruct (Js.padStart 2 "0" (Js.toString n)) as [ | a [ | b [ | ] ] ];
    try discriminate Hin.
  exists a, b. split; [ reflexivity | ]. by apply bool_decide_eq_true in Hin.
Qed.

(** X22.  For a date of the years 1000 to 9999, the text [dateString]
    produces reads back as the day after it, in the same month, when there
    is one; for the last day of a month the text denotes no date. *)
Theorem dateString_reads_as_next_day (date : Date.t) :
  1000 <= Date.getFullYear date < 10 * 1000 ->
  Date.getMonth date <= 11 ->
  1 <= Date.getDate date <=
    Moment.daysInMonth (Date.getFullYear date) (Date.getMonth date + 1) ->
  Moment.parse (dateString date) =
    if Date.getDate date <?
       Moment.daysInMonth (Date.getFullYear date) (Date.getMonth date + 1)
    then Some (Moment.mk (Date.getFullYear date) (Date.getMonth date + 1)
                 (Date.getDate date + 1))
    else None.
Proof.
  destruct date as [ y m d ]. cbn [Date.getFullYear Date.getMonth Date.getDate].
  intros Hy Hm Hd. unfold dateString.
  cbn [Date.getFullYear Date.getMonth Date.getDate].
  assert (Hdays : Moment.daysInMonth y (m + 1) <= 31).
  { generalize (m + 1). intros k. unfold Moment.daysInMonth.
    do 12 (destruct k as [ | k ]; [ destruct (Moment.isLeapYear y); lia | ]).
    lia. }
  destruct (printed_four y Hy) as (y1 & y2 & y3 & y4 & -> & Ey).
  destruct (printed_two (m + 1)) as (m1 & m2 & -> & Em); [ lia | ].
  destruct (printed_two (d + 1)) as (d1 & d2 & -> & Ed); [ lia | ].
  cbv [String.append]. unfold Moment.parse.
  rewrite Ey, Em, Ed. cbn [mbind option_bind Moment.timeSuffix andb].
  unfold Moment.valid. cbn [Moment.year Moment.month Moment.date].
  rewrite andb_true_r.
  replace (1 <=? m + 1) with true by (symmetry; apply Nat.leb_le; lia).
  replace (m + 1 <=? 12) with true by (symmetry; apply Nat.leb_le; lia).
  replace (1 <=? d + 1) with true by (symmetry; apply Nat.leb_le; lia).
  cbn [andb].
  destruct (Nat.ltb_spec d (Moment.daysInMonth y (m + 1))) as [ Hlt | Hge ].
  - by rewrite (proj2 (Nat.leb_le _ _)) by lia.
  - by rewrite (proj2 (Nat.leb_gt _ _)) by lia.
Qed.

Lemma dateString_reads_as_next_day_witness :
  let date := Date.mk 2024 1 28 in
  Moment.parse (dateString date) = Some (Moment.mk 2024 2 29).
Proof.
  intros date.
  rewrite (dateString_reads_as_next_day date);
    [ reflexivity | cbn; lia | cbn; lia | cbn; lia ].
Defined.

End DateText.

(** ** The shape of the buckets *)

Section BucketShape.

Import Stack.

Lemma years_present {R : Reading} (d : SpartacusResult) (year : string) :
  year ∈ years (yearlyData d) -> is_Some (yearlyData d !! year).
Proof.
  unfold years, Js.sort. rewrite merge_sort_Permutation, elem_of_elements.
  apply elem_of_dom.
Qed.

(** The two arrays of a bucket are written at the same indices. *)
Lemma yearlyData_same_length {R : Reading} (d : SpartacusResult) (year : string) (y : YearData) :
  yearlyData d !! year = Some y -> length (minTemps y) = length (maxTemps y).
Proof.
  revert year y. unfold yearlyData, Js.forEach.
  apply (forEachFrom_invariant
           (fun yd : gmap string YearData => ∀ year y, yd !! year = Some y ->
              length (minTemps y) = length (maxTemps y))).
  - intros yd date i _ Hyd. unfold fillDay.
    destruct (moment date) as [ m | ]; [ | exact Hyd ].
    intros year y. rewrite lookup_alter. case_decide; [ | apply Hyd ].
    destruct (yd !! yearOf date) as [ y0 | ] eqn:E0; [ | discriminate ].
    intros Hy. apply (inj Some) in Hy. subst y. cbn [minTemps maxTemps].
    rewrite !array_set_length. by rewrite (Hyd _ _ E0).
  - intros year y H. pose proof (initYears_fresh _ _ _ H) as ->. reflexivity.
Qed.

(** X23.  The two arrays of the bucket of a year have the same number of
    elements, 365 or 366. *)
Theorem bucket_arrays_365_or_366 (d : SpartacusResult) (year : string) :
  year ∈ years (yearlyData d) ->
  (length (minTempsOf (yearlyData d) year) = 365 ∨
   length (minTempsOf (yearlyData d) year) = 366) ∧
  length (maxTempsOf (yearlyData d) year) =
  length (minTempsOf (yearlyData d) year).
Proof.
  intros H. apply years_present in H as [ y Hy ].
  unfold minTempsOf, maxTempsOf. rewrite Hy. cbn.
  destruct (yearlyData_365_or_366 d year y Hy) as [ Hmin _ ].
  rewrite <- (yearlyData_same_length d year y Hy). unfold cell in *.
  split; [ lia | reflexivity ].
Qed.

(** X24.  However the browser reads the timestamps: when none of them is,
    so read, the 366th day of its year, the two arrays of every bucket have exactly 365 elements, one for each
    label of the stacked view. *)
Theorem buckets_365_without_day_366 (R : Reading) (d : SpartacusResult)
    (year : string) :
  (∀ date m, date ∈ timestamps d -> moment date = Some m ->
             Moment.dayOfYear m <= 365) ->
  year ∈ years (yearlyData d) ->
  length (minTempsOf (yearlyData d) year) = 365 ∧
  length (maxTempsOf (yearlyData d) year) = 365 ∧
  length (minTempsOf (yearlyData d) year) = length labels.
Proof.
  intros Hdays H. apply years_present in H as [ y Hy ].
  rewrite labels_length. unfold minTempsOf, maxTempsOf. rewrite Hy. cbn.
  destruct (yearlyData_365 d Hdays year y Hy) as [ Hmin Hmax ].
  unfold cell in *. lia.
Qed.

(** X25.  When [TN.data] and [TX.data] have an element for every
    timestamp, every element of every bucket is a number or [null], never
    [undefined]. *)
Theorem bucket_elements_number_or_null (d : SpartacusResult) (year : string)
    (k : nat) (c : cell) :
  length (timestamps d) <= length (TN d) ->
  length (timestamps d) <= length (TX d) ->
  minTempsOf (yearlyData d) year !! k = Some c ∨
  maxTempsOf (yearlyData d) year !! k = Some c ->
  c = Some Null ∨ ∃ x, c = Some (Num x).
Proof.
  intros Hn Hx Hk.
  assert (Hc : is_Some c).
  { unfold minTempsOf, maxTempsOf in Hk.
    destruct (yearlyData d !! year) as [ y | ] eqn:Hy;
      [ | destruct Hk as [ Hk | Hk ]; cbn in Hk; by rewrite lookup_nil in Hk ].
    destruct (yearlyData_filled d Hn Hx year y Hy) as [ Fmin Fmax ].
    unfold filled in *. rewrite Forall_lookup in Fmin, Fmax.
    destruct Hk as [ Hk | Hk ]; cbn in Hk; eauto. }
  destruct Hc as [ [ x | ] -> ]; eauto.
Qed.

Lemma oneYear_member : "2021" ∈ years (yearlyData Example.oneYear).
Proof. rewrite oneYear_years. apply list_elem_of_here. Qed.

Lemma oneYear_days (date : string) (m : Moment.t) :
  date ∈ timestamps Example.oneYear -> Moment.parse date = Some m ->
  Moment.dayOfYear m <= 365.
Proof.
  intros H. cbn in H. rewrite !elem_of_cons, elem_of_nil in H.
  destruct H as [ -> | [ -> | [] ] ]; vm_compute; intros [= <-]; cbn; lia.
Qed.

Lemma bucket_arrays_365_or_366_witness :
  let yd := yearlyData Example.oneYear in
  "2021" ∈ years yd ∧
  (length (minTempsOf yd "2021") = 365 ∨ length (minTempsOf yd "2021") = 366) ∧
  length (maxTempsOf yd "2021") = length (minTempsOf yd "2021").
Proof.
  intros yd. split; [ exact oneYear_member | ].
  exact (bucket_arrays_365_or_366 Example.oneYear "2021" oneYear_member).
Defined.

Lemma buckets_365_without_day_366_witness :
  let yd := yearlyData Example.oneYear in
  "2021" ∈ years yd ∧
  length (minTempsOf yd "2021") = 365 ∧
  length (maxTempsOf yd "2021") = 365 ∧
  length (minTempsOf yd "2021") = length labels.
Proof.
  intros yd. split; [ exact oneYear_member | ].
  exact (buckets_365_without_day_366 written Example.oneYear "2021" oneYear_days
           oneYear_member).
Defined.

Lemma bucket_elements_number_or_null_witness :
  let d := Example.oneYear in
  minTempsOf (yearlyData d) "2021" !! 1 = Some (Some Null) ∧
  (Some Null = Some Null ∨ ∃ x, Some Null = Some (Num x)).
Proof.
  intros d.
  assert (H : minTempsOf (yearlyData d) "2021" !! 1 = Some (Some Null))
    by (vm_compute; reflexivity).
  split; [ exact H | ].
  apply (bucket_elements_number_or_null d "2021" 1 (Some Null));
    [ cbn; lia | cbn; lia | left; exact H ].
Defined.

End BucketShape.
